(** * Ephemeris: calendar events, rule expansion and overlap reduction

    A shallow embedding of the Go package [ephemeris]: the [Event] and
    [Rule] types, [Rule.Expand], [isOverlap], [reduceEvents],
    [ReduceAllEvents], [Calendar.View] and [RepeatEventAnnually], the
    property function of [TestSquashEvents_Property], and [SquashEvents]
    and [CondenseOverlaps] of the earlier version of the package,
    followed by the properties established about them.

    Conventions of the embedding.
    - A Go function that may panic returns an [outcome]; a Go loop whose
      termination is not evident from its text is iterated by a fuel
      counter, [OutOfFuel] meaning "the loop was still running".
    - Go's [int] indices are modelled in [Z]; they are lengths of slices
      and small offsets from them, so the 64-bit wrap-around cannot
      occur.
    - [time.Time] instants are modelled as nanoseconds since the Unix
      epoch, in [Z].  [time.Add] is exact addition; Go's [Time.Add],
      which saturates at the ends of its range, is [AddSaturating], and
      [ExpandGo] is [Rule.Expand] over it. *)

From Stdlib Require Import ZArith List String Bool Lia.
Import ListNotations.
Open Scope Z_scope.

(** ** The part of Go's [time] package used by the program *)

Module time.

(** An instant, in nanoseconds since 1970-01-01T00:00:00Z.  Go's own
    representation is bounded (seconds in a signed 64-bit word); every
    instant that occurs below is far inside that range. *)
Definition Time : Type := Z.

(** [time.Duration] is an [int64] count of nanoseconds. *)
Definition Duration : Type := Z.

Definition wrap64 (z : Z) : Z := (z + 2 ^ 63) mod 2 ^ 64 - 2 ^ 63.

(** Unary minus on [Duration], with the wrap-around of [int64]. *)
Definition neg (d : Duration) : Duration := wrap64 (- d).

(** Product of two [Duration]s, with the wrap-around of [int64]. *)
Definition mul (a b : Duration) : Duration := wrap64 (a * b).

Definition Nanosecond : Duration := 1.
Definition Second : Duration := 1000000000.
Definition Hour : Duration := 3600 * Second.

Definition Before (t u : Time) : bool := t <? u.
Definition After (t u : Time) : bool := u <? t.
Definition Equal (t u : Time) : bool := t =? u.
Definition Add (t : Time) (d : Duration) : Time := t + d.

(** Days between 1970-01-01 and the given date of the proleptic
    Gregorian calendar. *)
Definition days_from_civil (y m d : Z) : Z :=
  let y' := if m <=? 2 then y - 1 else y in
  let era := y' / 400 in
  let yoe := y' - era * 400 in
  let mp := if 2 <? m then m - 3 else m + 9 in
  let doy := (153 * mp + 2) / 5 + d - 1 in
  let doe := yoe * 365 + yoe / 4 - yoe / 100 + doy in
  era * 146097 + doe - 719468.

(** The date (year, month, day) of a day number, inverse of
    [days_from_civil]. *)
Definition civil_from_days (z : Z) : Z * Z * Z :=
  let z' := z + 719468 in
  let era := z' / 146097 in
  let doe := z' - era * 146097 in
  let yoe := (doe - doe / 1460 + doe / 36524 - doe / 146096) / 365 in
  let doy := doe - (365 * yoe + yoe / 4 - yoe / 100) in
  let mp := (5 * doy + 2) / 153 in
  let d := doy - (153 * mp + 2) / 5 + 1 in
  let m := if mp <? 10 then mp + 3 else mp - 9 in
  ((if m <=? 2 then yoe + era * 400 + 1 else yoe + era * 400), m, d).

Definition nsPerDay : Z := 86400 * Second.

(** [time.Date(y, m, d, 0, 0, 0, 0, time.UTC)]. *)
Definition Date (y m d : Z) : Time := days_from_civil y m d * nsPerDay.

(** The zero value [time.Time{}]: January 1 of year 1, UTC. *)
Definition zero : Time := Date 1 1 1.

Definition Year (t : Time) : Z := fst (fst (civil_from_days (t / nsPerDay))).
Definition Month (t : Time) : Z := snd (fst (civil_from_days (t / nsPerDay))).
Definition Day (t : Time) : Z := snd (civil_from_days (t / nsPerDay)).

Definition February : Z := 2.

End time.

(** ** Panics and outcomes *)

Inductive panic : Type :=
| MissedSomething      (** [panic("missed something here: ...")] in [reduceEvents] *)
| IndexOutOfRange      (** an index expression [s[i]] outside [0 .. len(s)-1] *)
| SliceBoundsOutOfRange. (** a slice expression [s[i:j]] with invalid bounds *)

Inductive outcome (A : Type) : Type :=
| Returned (a : A)
| Panicked (p : panic)
| OutOfFuel.

Arguments Returned {A} a.
Arguments Panicked {A} p.
Arguments OutOfFuel {A}.

Definition bind {A B : Type} (m : outcome A) (k : A -> outcome B) : outcome B :=
  match m with
  | Returned a => k a
  | Panicked p => Panicked p
  | OutOfFuel => OutOfFuel
  end.

Notation "x <- m ;; k" := (bind m (fun x => k))
  (at level 61, m at next level, right associativity).
Notation "' p <- m ;; k" := (bind m (fun p => k))
  (at level 61, p pattern, m at next level, right associativity).

(** ** Data model *)

Record Event : Type := mkEvent {
  Start : time.Time;
  End : time.Time;
  Name : string
}.

(** Go's [Rule] embeds [Event]; the embedded struct is the field
    [RuleEvent], and [r.Start], [r.End], [r.Name] of the source are its
    fields. *)
Record Rule : Type := mkRule {
  RuleEvent : Event;
  RepeatDuration : time.Duration;
  RepeatDateAnually : Z;
  RepeatWeekly : Z;
  RepeatDayOfMonthMonthly : Z;
  RepeatDaily : Z;
  RepeatForwardUntil : time.Time;
  RepeatBackwardUntil : time.Time;
  Skip : list time.Time;
  Canceled : list time.Time
}.

Record Calendar : Type := mkCalendar {
  CalendarName : string;
  Entries : list Rule
}.

(** The invariant of the data model: an event does not end before it
    starts. *)
Definition valid (e : Event) : Prop := Start e <= End e.

(** ** [isOverlap] *)

Definition isOverlap (e1 e2 : Event) : bool :=
  if (time.Before (Start e1) (Start e2) && time.Before (End e1) (Start e2))
     || (time.Before (Start e2) (Start e1) && time.Before (End e2) (Start e1))
  then false
  else if time.Before (Start e1) (Start e2) && time.Equal (Start e2) (End e1)
          && time.After (End e2) (End e1)
  then false
  else true.

(** ** [reduceEvents] *)

Definition withStart (e : Event) (t : time.Time) : Event :=
  {| Start := t; End := End e; Name := Name e |}.

Definition withEnd (e : Event) (t : time.Time) : Event :=
  {| Start := Start e; End := t; Name := Name e |}.

Definition reduceEvents (e1 e2 : Event) : outcome (list Event * list Event) :=
  if negb (isOverlap e1 e2) then Returned ([e1], [e2])
  (* Same time span *)
  else if time.Equal (Start e1) (Start e2) && time.Equal (End e1) (End e2)
  then Returned ([], [e2])
  (* Same Start, e1 ends later *)
  else if time.Equal (Start e1) (Start e2) && time.After (End e1) (End e2)
  then Returned ([withStart e1 (End e2)], [e2])
  (* Same Start, e1 ends earlier; the source assigns e1.Start = e2.End to
     its local copy of e1 here and then returns without it *)
  else if time.Equal (Start e1) (Start e2) && time.Before (End e1) (End e2)
  then Returned ([], [e2])
  (* e2 is within e1 *)
  else if time.Before (Start e1) (Start e2) && time.After (End e1) (End e2)
  then
    let e1p1 := withEnd e1 (Start e2) in
    let e1p2 := withEnd (withStart e1 (End e2)) (End e1) in
    Returned ([e1p1; e1p2], [e2])
  (* e1 is within e2 *)
  else if time.Before (Start e2) (Start e1) && time.After (End e2) (End e1)
  then Returned ([], [e2])
  (* middle overlap, e1 first *)
  else if time.Before (Start e1) (Start e2) && time.Before (Start e2) (End e1)
          && time.After (End e2) (End e1)
  then Returned ([withEnd e1 (Start e2)], [e2])
  (* middle overlap, e2 first *)
  else if time.Before (Start e2) (Start e1) && time.Before (Start e1) (End e2)
          && time.After (End e1) (End e2)
  then Returned ([withStart e1 (End e2)], [e2])
  else Panicked MissedSomething.

(** ** [Rule.Expand] *)

Definition occurrence (r : Rule) (s e : time.Time) : Event :=
  {| Start := s; End := e; Name := Name (RuleEvent r) |}.

(** The first loop of [Expand]: "go backwards to the viewStart".  The
    loop condition is tested before fuel is consumed, so a loop that is
    not entered returns with any fuel. *)
Fixpoint expandBackward (fuel : nat) (r : Rule) (viewStart : time.Time)
    (evaluatingStartTime evaluatingEndTime : time.Time)
    (expandedEvents : list Event) : outcome (list Event) :=
  if time.After evaluatingStartTime viewStart then
    match fuel with
    | O => OutOfFuel
    | S fuel' =>
        let evaluatingEndTime :=
          time.Add evaluatingEndTime (time.neg (RepeatDuration r)) in
        let expandedEvents :=
          expandedEvents ++ [occurrence r evaluatingStartTime evaluatingEndTime] in
        expandBackward fuel' r viewStart
          (time.Add evaluatingStartTime (time.neg (RepeatDuration r)))
          evaluatingEndTime expandedEvents
    end
  else Returned expandedEvents.

(** The second loop of [Expand]: "go forwards to the viewEnd". *)
Fixpoint expandForward (fuel : nat) (r : Rule) (viewEnd : time.Time)
    (evaluatingStartTime evaluatingEndTime : time.Time)
    (expandedEvents : list Event) : outcome (list Event) :=
  if time.Before evaluatingStartTime viewEnd then
    match fuel with
    | O => OutOfFuel
    | S fuel' =>
        let evaluatingEndTime :=
          time.Add evaluatingEndTime (RepeatDuration r) in
        let expandedEvents :=
          expandedEvents ++ [occurrence r evaluatingStartTime evaluatingEndTime] in
        expandForward fuel' r viewEnd
          (time.Add evaluatingStartTime (RepeatDuration r))
          evaluatingEndTime expandedEvents
    end
  else Returned expandedEvents.

Definition Expand (fuel : nat) (r : Rule) (viewStart viewEnd : time.Time)
    : outcome (list Event) :=
  expandedEvents <-
    expandBackward fuel r viewStart (Start (RuleEvent r)) (End (RuleEvent r)) [] ;;
  expandForward fuel r viewEnd (Start (RuleEvent r)) (End (RuleEvent r))
    expandedEvents.

(** ** Slices *)

Definition len {A : Type} (s : list A) : Z := Z.of_nat (List.length s).

(** The index expression [s[i]]. *)
Definition index {A : Type} (s : list A) (i : Z) : outcome A :=
  if (0 <=? i) && (i <? len s) then
    match nth_error s (Z.to_nat i) with
    | Some a => Returned a
    | None => Panicked IndexOutOfRange
    end
  else Panicked IndexOutOfRange.

Module slices.

(** [slices.Replace(s, i, j, v...)] replaces the elements [s[i:j]] by
    [v] and returns the modified slice; it panics if [j > len(s)] or
    if [s[i:j]] is not a valid slice of [s].  (When [len(s) < j <=
    cap(s)] the first bounds check of the library passes and the
    expression [s[j:]] panics instead; both are the same run-time
    panic.)  The values [v] handed to it by [ReduceAllEvents] are
    freshly allocated, so no aliasing with [s] is involved. *)
Definition Replace {A : Type} (s : list A) (i j : Z) (v : list A)
    : outcome (list A) :=
  if (0 <=? i) && (i <=? j) && (j <=? len s)
  then Returned (firstn (Z.to_nat i) s ++ v ++ skipn (Z.to_nat j) s)
  else Panicked SliceBoundsOutOfRange.

End slices.

(** ** [ReduceAllEvents] *)

(** [ReduceAllEvents] works on [processedEvents := events], which shares
    the backing array of the argument, so the caller's slice may be
    overwritten; the model follows the returned slice only, which is
    what the properties below are about.  Its result pairs the slice
    with the returned [error]. *)

(** Go's [error] values; [nil] is [None] in an [option error]. *)
Definition error : Type := string.

Inductive control : Type :=
| Continue (processedEvents : list Event) (i j : Z)
| Break (processedEvents : list Event).

(** One iteration of the [for j != len(processedEvents)] loop, from the
    test of the loop condition to the [continue] or [break] reached. *)
Definition loopBody (processedEvents : list Event) (i j : Z) : outcome control :=
  if j =? len processedEvents then Returned (Break processedEvents)
  else
    let '(i, j) := if i =? len processedEvents then (0, j + 1) else (i, j) in
    if (i =? len processedEvents - 2) && (j =? len processedEvents)
    then Returned (Break processedEvents)
    else
      ei <- index processedEvents i ;;
      ej <- index processedEvents j ;;
      if negb (isOverlap ei ej) then Returned (Continue processedEvents (i + 1) j)
      else
        '(updatedEvents1, updatedEvents2) <- reduceEvents ei ej ;;
        processedEvents <-
          slices.Replace processedEvents i (i + 1) updatedEvents1 ;;
        processedEvents <-
          slices.Replace processedEvents (j + len updatedEvents1)
            (j + len updatedEvents1 + 1) updatedEvents2 ;;
        Returned (Continue processedEvents 0 1).

Fixpoint reduceLoop (fuel : nat) (processedEvents : list Event) (i j : Z)
    : outcome (list Event) :=
  match fuel with
  | O => OutOfFuel
  | S fuel' =>
      c <- loopBody processedEvents i j ;;
      match c with
      | Break processedEvents => Returned processedEvents
      | Continue processedEvents i j => reduceLoop fuel' processedEvents i j
      end
  end.

Definition ReduceAllEvents (fuel : nat) (events : list Event)
    : outcome (list Event * option error) :=
  if len events <? 2 then Returned (events, None)
  else
    processedEvents <- reduceLoop fuel events 0 1 ;;
    Returned (processedEvents, None).

(** ** [Calendar.View] *)

(** The [range c.Entries] loop.  Its inner loop over [expandedEvents]
    only executes [continue] and has no effect. *)
Fixpoint viewEntries (fuel : nat) (entries : list Rule)
    (viewStart viewEnd : time.Time) (results : list Event)
    : outcome (list Event) :=
  match entries with
  | [] => Returned results
  | rule :: entries' =>
      expandedEvents <- Expand fuel rule viewStart viewEnd ;;
      viewEntries fuel entries' viewStart viewEnd (results ++ expandedEvents)
  end.

Definition View (fuel : nat) (c : Calendar) (viewStart viewEnd : time.Time)
    : outcome (list Event * option error) :=
  results <- viewEntries fuel (Entries c) viewStart viewEnd [] ;;
  '(results, err) <- ReduceAllEvents fuel results ;;
  match err with
  | Some e => Returned ([], Some e)
  | None => Returned (results, None)
  end.

(** ** Concrete events and rules used in the examples *)

Definition ev (s e : time.Time) : Event := mkEvent s e "".

(** The rule of [TestExpandEvents]: a one-day event on 2020-02-13,
    repeated every [24 * time.Hour * 365], forward until 2025-02-13. *)
Definition birthdayRule : Rule :=
  {| RuleEvent := mkEvent (time.Date 2020 time.February 13)
                          (time.Date 2020 time.February 14)
                          "Dominico's Birthday";
     RepeatDuration := time.mul (time.mul 24 time.Hour) 365;
     RepeatDateAnually := 0;
     RepeatWeekly := 0;
     RepeatDayOfMonthMonthly := 0;
     RepeatDaily := 0;
     RepeatForwardUntil := time.Date 2025 2 13;
     RepeatBackwardUntil := time.zero;
     Skip := [];
     Canceled := [] |}.

(** A rule that does not repeat: every field but the event is zero. *)
Definition onceRule (e : Event) : Rule :=
  {| RuleEvent := e;
     RepeatDuration := 0;
     RepeatDateAnually := 0;
     RepeatWeekly := 0;
     RepeatDayOfMonthMonthly := 0;
     RepeatDaily := 0;
     RepeatForwardUntil := time.zero;
     RepeatBackwardUntil := time.zero;
     Skip := [];
     Canceled := [] |}.

Definition birthdayViewStart : time.Time := time.Date 2020 2 13.
Definition birthdayViewEnd : time.Time := time.Date 2025 2 13.

(** What [Expand] returns for it: six events, whose starts are 365 days
    apart from 2020-02-13 on, and whose ends are the end of the base
    event stepped once more than the start. *)
Definition birthdayExpansion : list Event :=
  map (fun se => mkEvent (fst se) (snd se) "Dominico's Birthday")
    [ (time.Date 2020 2 13, time.Date 2021 2 13);
      (time.Date 2021 2 12, time.Date 2022 2 13);
      (time.Date 2022 2 12, time.Date 2023 2 13);
      (time.Date 2023 2 12, time.Date 2024 2 13);
      (time.Date 2024 2 12, time.Date 2025 2 12);
      (time.Date 2025 2 11, time.Date 2026 2 12) ].

(** The sentence of the specification about this rule: five
    occurrences, of the years 2020 to 2024, each starting on February
    13 and ending on February 14. *)
Definition fiveBirthdays (res : list Event) : Prop :=
  len res = 5 /\
  map (fun e => time.Year (Start e)) res = [2020; 2021; 2022; 2023; 2024] /\
  Forall (fun e => time.Month (Start e) = time.February /\ time.Day (Start e) = 13 /\
                   time.Month (End e) = time.February /\ time.Day (End e) = 14) res.

(** What it means for [f] to be a fragment of [e]: a valid sub-interval
    of [e] under the same name. *)
Definition fragmentOf (e f : Event) : Prop :=
  Start e <= Start f /\ End f <= End e /\ Start f <= End f /\ Name f = Name e.

(** The states the loop is confined to: [j] is still 1, [i] is 0 or 1,
    and at least two events are left. *)
Definition confined (processedEvents : list Event) (i j : Z) : Prop :=
  2 <= len processedEvents /\ j = 1 /\ (i = 0 \/ i = 1).

(** [ReduceAllEvents(ReduceAllEvents(x))], the error value of the inner
    call being discarded as the tests do ([got, _ := ...]). *)
Definition ReduceAllEventsTwice (fuel : nat) (events : list Event)
    : outcome (list Event * option error) :=
  '(reduced, _) <- ReduceAllEvents fuel events ;;
  ReduceAllEvents fuel reduced.

(** The date of an instant, as [(Year(), Month(), Day())]. *)
Definition dateOf (t : time.Time) : Z * Z * Z :=
  (time.Year t, time.Month t, time.Day t).

(** ** Instants at which an event is active *)

(** An event is active from its start, included, to its end, excluded,
    as in the diagrams of [reduceEvents], where a fragment of [e1]
    begins at the very instant [e2] ends. *)
Definition active (e : Event) (t : time.Time) : Prop := Start e <= t < End e.

(** The pairs on which the "matching start and end times" test of
    [isOverlap] fires: [a] starts first and [b] begins at the end of
    [a] and ends later. *)
Definition touching (a b : Event) : Prop :=
  Start a < Start b /\ Start b = End a /\ End a < End b.

(** The valid pairs that [reduceEvents] does not handle: the events end
    together without starting together, or [e2] starts first and [e1]
    begins at the end of [e2] and ends later. *)
Definition unhandled (e1 e2 : Event) : Prop :=
  (Start e1 <> Start e2 /\ End e1 = End e2) \/ touching e2 e1.

(** ** [RepeatEventAnnually] *)

(** The instant [days] days of 24 hours after [t]. *)
Definition AddDateDays (t : time.Time) (days : Z) : time.Time :=
  t + days * time.nsPerDay.

(** [RepeatEventAnnually] calls [AddDate] in one form only,
    [t.AddDate(0, 0, days)], with its [numberOfYears] as the number of
    days.  What that returns depends on the [Location] of [t] and on
    the 64-bit arithmetic of the [time] package: Go rebuilds the instant
    from the civil date and clock of [t] in its zone, so the result is
    [AddDateDays t days] in UTC for moderate day counts, and something
    else across a change of zone offset or when a word overflows.  The
    model therefore takes the method as its parameter [AddDate]; each
    property states what it needs of it. *)

(** The loop "repeat events forward in time". *)
Fixpoint repeatForward (AddDate : time.Time -> Z -> time.Time) (fuel : nat)
    (e : Event) (numberOfYears : Z)
    (start : time.Time) (forwardDirection : time.Time)
    (repeatedEvents : list Event) : outcome (list Event) :=
  if negb (time.After forwardDirection (End e))
     && negb (time.Before forwardDirection start)
  then
    match fuel with
    | O => OutOfFuel
    | S fuel' =>
        let repeatedEvent :=
          {| Start := forwardDirection;
             End := AddDate forwardDirection numberOfYears;
             Name := Name e ++ " (forward)" |} in
        repeatForward AddDate fuel' e numberOfYears start
          (AddDate forwardDirection numberOfYears)
          (repeatedEvents ++ [repeatedEvent])
    end
  else Returned repeatedEvents.

(** The loop "repeat events backward in time"; [-numberOfYears] is the
    negation of a Go [int], with its wrap-around. *)
Fixpoint repeatBackward (AddDate : time.Time -> Z -> time.Time) (fuel : nat)
    (e : Event) (numberOfYears : Z)
    (backwardDirection : time.Time)
    (repeatedEvents : list Event) : outcome (list Event) :=
  if negb (time.Before backwardDirection (Start e))
     && negb (time.After backwardDirection (End e))
  then
    match fuel with
    | O => OutOfFuel
    | S fuel' =>
        let repeatedEvent :=
          {| Start := backwardDirection;
             End := AddDate backwardDirection (time.wrap64 (- numberOfYears));
             Name := Name e ++ " (backward)" |} in
        repeatBackward AddDate fuel' e numberOfYears
          (AddDate backwardDirection (time.wrap64 (- numberOfYears)))
          (repeatedEvents ++ [repeatedEvent])
    end
  else Returned repeatedEvents.

(** The parameter [end] of the source is named [end_] here; the source
    never reads it. *)
Definition RepeatEventAnnually (AddDate : time.Time -> Z -> time.Time)
    (fuel : nat) (e : Event) (numberOfYears : Z)
    (start end_ : time.Time) : outcome (list Event) :=
  let forwardDirection := AddDate (Start e) numberOfYears in
  let backwardDirection := AddDate (Start e) (time.wrap64 (- numberOfYears)) in
  let repeatedEvents :=
    [ {| Start := Start e; End := End e; Name := Name e |} ] in
  repeatedEvents <-
    repeatForward AddDate fuel e numberOfYears start forwardDirection
      repeatedEvents ;;
  repeatBackward AddDate fuel e numberOfYears backwardDirection repeatedEvents.

(** ** The property function of [TestSquashEvents_Property] *)

(** [time.UnixMilli(ms)]. *)
Definition UnixMilli (ms : Z) : time.Time := ms * 1000000.

(** An event outside the span from [earliest] to [latest]. *)
Definition exceeds (earliest latest : time.Time) (gotEvent : Event) : bool :=
  time.Before (Start gotEvent) earliest || time.After (End gotEvent) latest.

(** The function [f] handed to [quick.Check]: [Returned false] is a
    failed check, a panic of [reduceEvents] passes through. *)
Definition squashProperty (e1s e1e e2s e2e : Z) : outcome bool :=
  let t1 := UnixMilli e1s in
  let t2 := UnixMilli e1e in
  let t3 := UnixMilli e2s in
  let t4 := UnixMilli e2e in
  let e1 := if time.Before t1 t2 then mkEvent t1 t2 "" else mkEvent t2 t1 "" in
  let e2 := if time.Before t3 t4 then mkEvent t3 t4 "" else mkEvent t4 t3 "" in
  '(got1, got2) <- reduceEvents e1 e2 ;;
  if len got1 + len got2 <=? 0 then Returned false
  else if 3 <? len got1 + len got2 then Returned false
  else
    let earliest :=
      if time.After (Start e1) (Start e2) then Start e2 else Start e1 in
    let latest :=
      if time.Before (End e1) (End e2) then End e2 else End e1 in
    if existsb (exceeds earliest latest) got1 then Returned false
    else if existsb (exceeds earliest latest) got2 then Returned false
    else Returned true.

(** ** The earlier version of the package, [src/pkg/calendar.go] *)

Module legacy.

(** The [Event] of that version carries its own [Repeat]. *)
Record Event : Type := mkEvent {
  Start : time.Time;
  End : time.Time;
  Name : string;
  Repeat : time.Duration
}.

Definition withStart (e : Event) (t : time.Time) : Event :=
  {| Start := t; End := End e; Name := Name e; Repeat := Repeat e |}.

Definition withEnd (e : Event) (t : time.Time) : Event :=
  {| Start := Start e; End := t; Name := Name e; Repeat := Repeat e |}.

Definition SquashEvents (e1 e2 : Event) : outcome (list Event) :=
  (* No overlap *)
  if (time.Before (Start e1) (Start e2) && time.Before (End e1) (Start e2))
     || (time.Before (Start e2) (Start e1) && time.Before (End e2) (Start e1))
  then Returned [e1; e2]
  (* no overlap matching start and end times *)
  else if time.Before (Start e1) (Start e2) && time.Equal (Start e2) (End e1)
          && time.After (End e2) (End e1)
  then Returned [e1; e2]
  (* Same time span *)
  else if time.Equal (Start e1) (Start e2) && time.Equal (End e1) (End e2)
  then Returned [e2]
  (* Same Start, e1 ends later *)
  else if time.Equal (Start e1) (Start e2) && time.After (End e1) (End e2)
  then Returned [withStart e1 (End e2); e2]
  (* Same Start, e1 ends earlier *)
  else if time.Equal (Start e1) (Start e2) && time.Before (End e1) (End e2)
  then Returned [e2]
  (* e2 is within e1 *)
  else if time.Before (Start e1) (Start e2) && time.After (End e1) (End e2)
  then
    let e1p1 := withEnd e1 (Start e2) in
    let e1p2 := withEnd (withStart e1 (End e2)) (End e1) in
    Returned [e1p1; e1p2; e2]
  (* e1 is within e2 *)
  else if time.Before (Start e2) (Start e1) && time.After (End e2) (End e1)
  then Returned [e2]
  (* middle overlap, e1 first *)
  else if time.Before (Start e1) (Start e2) && time.Before (Start e2) (End e1)
          && time.After (End e2) (End e1)
  then Returned [withEnd e1 (Start e2); e2]
  (* middle overlap, e2 first *)
  else if time.Before (Start e2) (Start e1) && time.Before (Start e1) (End e2)
          && time.After (End e1) (End e2)
  then Returned [withStart e1 (End e2); e2]
  else Panicked MissedSomething.

(** The inner loop of [CondenseOverlaps], [for j := i + 1; i <
    len(events); j++]: its condition is on [i], which the loop does not
    change. *)
Fixpoint condenseInner (fuel : nat) (events : list Event) (i j : Z)
    (result : list Event) : outcome (list Event) :=
  if i <? len events then
    match fuel with
    | O => OutOfFuel
    | S fuel' =>
        if i =? j then condenseInner fuel' events i (j + 1) result
        else
          ei <- index events i ;;
          ej <- index events j ;;
          evs <- SquashEvents ei ej ;;
          condenseInner fuel' events i (j + 1) (result ++ evs)
    end
  else Returned result.

(** The outer loop, [for i := 0; i < len(events); i++]. *)
Fixpoint condenseOuter (fuel : nat) (events : list Event) (i : Z)
    (result : list Event) : outcome (list Event) :=
  if i <? len events then
    match fuel with
    | O => OutOfFuel
    | S fuel' =>
        result <- condenseInner fuel events i (i + 1) result ;;
        condenseOuter fuel' events (i + 1) result
    end
  else Returned result.

Definition CondenseOverlaps (fuel : nat) (events : list Event)
    : outcome (list Event) :=
  condenseOuter fuel events 0 [].

End legacy.

(** The event of the current version that an event of the earlier
    version stands for. *)
Definition currentEvent (e : legacy.Event) : Event :=
  {| Start := legacy.Start e; End := legacy.End e; Name := legacy.Name e |}.

(** ** [Time.Add] as Go implements it, and [Rule.Expand] over it *)

(** [time.Add] above is exact addition of nanoseconds.  Go keeps an
    instant as a count of seconds since January 1 of year 1 in a signed
    64-bit word, with the nanoseconds within the second beside it, and
    its [Time.Add] saturates the count of seconds at the ends of that
    range.  What follows is [Time.Add] with that saturation, for
    instants without a monotonic clock reading (those of [time.Date] and
    [time.UnixMilli]), and the loops of [Expand] over it. *)

(** Seconds from January 1 of year 1 to the Unix epoch. *)
Definition unixToInternal : Z := 62135596800.

(** The two fields of an instant: its seconds since year 1 and its
    nanoseconds within the second. *)
Definition internalSec (t : time.Time) : Z := t / time.Second + unixToInternal.
Definition internalNsec (t : time.Time) : Z := t mod time.Second.

(** The instant with the given fields. *)
Definition internalTime (sec nsec : Z) : time.Time :=
  (sec - unixToInternal) * time.Second + nsec.

(** The instants Go can hold. *)
Definition representable (t : time.Time) : Prop :=
  - 2 ^ 63 <= internalSec t <= 2 ^ 63 - 1.

(** [Time.addSec]: the sum wraps in [int64]; when it went the wrong way
    the count is set to the end of the range it overflowed. *)
Definition addSec (ext d : Z) : Z :=
  let sum := time.wrap64 (ext + d) in
  if Bool.eqb (ext <? sum) (0 <? d) then sum
  else if 0 <? d then 2 ^ 63 - 1
  else - (2 ^ 63 - 1).

(** [Time.Add]: the duration is split by Go's truncating [/] and [%]
    into seconds and nanoseconds, the nanoseconds are added and carried,
    and the seconds are added by [addSec]. *)
Definition AddSaturating (t : time.Time) (d : time.Duration) : time.Time :=
  let dsec := Z.quot d time.Second in
  let nsec := internalNsec t + Z.rem d time.Second in
  let '(dsec, nsec) :=
    if time.Second <=? nsec then (dsec + 1, nsec - time.Second)
    else if nsec <? 0 then (dsec - 1, nsec + time.Second)
    else (dsec, nsec) in
  internalTime (addSec (internalSec t) dsec) nsec.

(** Instants within 2^61 seconds of the Unix epoch, some seventy
    billion years either way: from these no step that [Expand] takes
    with a [RepeatDuration] reaches the ends of Go's range. *)
Definition safeInstant (t : time.Time) : Prop :=
  - 2 ^ 61 * time.Second <= t <= 2 ^ 61 * time.Second.

(** The backward loop of [Expand], with Go's [Time.Add]. *)
Fixpoint expandBackwardGo (fuel : nat) (r : Rule) (viewStart : time.Time)
    (evaluatingStartTime evaluatingEndTime : time.Time)
    (expandedEvents : list Event) : outcome (list Event) :=
  if time.After evaluatingStartTime viewStart then
    match fuel with
    | O => OutOfFuel
    | S fuel' =>
        let evaluatingEndTime :=
          AddSaturating evaluatingEndTime (time.neg (RepeatDuration r)) in
        let expandedEvents :=
          expandedEvents ++ [occurrence r evaluatingStartTime evaluatingEndTime] in
        expandBackwardGo fuel' r viewStart
          (AddSaturating evaluatingStartTime (time.neg (RepeatDuration r)))
          evaluatingEndTime expandedEvents
    end
  else Returned expandedEvents.

(** The forward loop of [Expand], with Go's [Time.Add]. *)
Fixpoint expandForwardGo (fuel : nat) (r : Rule) (viewEnd : time.Time)
    (evaluatingStartTime evaluatingEndTime : time.Time)
    (expandedEvents : list Event) : outcome (list Event) :=
  if time.Before evaluatingStartTime viewEnd then
    match fuel with
    | O => OutOfFuel
    | S fuel' =>
        let evaluatingEndTime :=
          AddSaturating evaluatingEndTime (RepeatDuration r) in
        let expandedEvents :=
          expandedEvents ++ [occurrence r evaluatingStartTime evaluatingEndTime] in
        expandForwardGo fuel' r viewEnd
          (AddSaturating evaluatingStartTime (RepeatDuration r))
          evaluatingEndTime expandedEvents
    end
  else Returned expandedEvents.

(** [Rule.Expand] with Go's [Time.Add]. *)
Definition ExpandGo (fuel : nat) (r : Rule) (viewStart viewEnd : time.Time)
    : outcome (list Event) :=
  expandedEvents <-
    expandBackwardGo fuel r viewStart (Start (RuleEvent r)) (End (RuleEvent r)) [] ;;
  expandForwardGo fuel r viewEnd (Start (RuleEvent r)) (End (RuleEvent r))
    expandedEvents.

(** ** What [Rule.Expand] computes for a positive [RepeatDuration] *)

(** The numbers [0, 1, ..., n-1]. *)
Definition upto (n : Z) : list Z := map Z.of_nat (seq 0 (Z.to_nat n)).

(** How often the backward loop of [Expand] is entered: once for every
    multiple of the duration that can be taken off the rule's start
    with the result still after [viewStart]. *)
Definition backwardCount (r : Rule) (viewStart : time.Time) : Z :=
  if viewStart <? Start (RuleEvent r)
  then (Start (RuleEvent r) - viewStart - 1) / RepeatDuration r + 1
  else 0.

(** How often the forward loop is entered. *)
Definition forwardCount (r : Rule) (viewEnd : time.Time) : Z :=
  if Start (RuleEvent r) <? viewEnd
  then (viewEnd - Start (RuleEvent r) - 1) / RepeatDuration r + 1
  else 0.

Definition backwardOccurrences (r : Rule) (viewStart : time.Time) : list Event :=
  map (fun k => occurrence r (Start (RuleEvent r) - k * RepeatDuration r)
                             (End (RuleEvent r) - (k + 1) * RepeatDuration r))
      (upto (backwardCount r viewStart)).

Definition forwardOccurrences (r : Rule) (viewEnd : time.Time) : list Event :=
  map (fun k => occurrence r (Start (RuleEvent r) + k * RepeatDuration r)
                             (End (RuleEvent r) + (k + 1) * RepeatDuration r))
      (upto (forwardCount r viewEnd)).

(** The rule of [TestExpandEvents] with every field that [Expand] does
    not read set to something else. *)
Definition birthdayRuleVariant : Rule :=
  {| RuleEvent := RuleEvent birthdayRule;
     RepeatDuration := RepeatDuration birthdayRule;
     RepeatDateAnually := 1;
     RepeatWeekly := 2;
     RepeatDayOfMonthMonthly := 3;
     RepeatDaily := 4;
     RepeatForwardUntil := time.Date 2021 1 1;
     RepeatBackwardUntil := time.Date 2020 12 31;
     Skip := [time.Date 2021 2 12];
     Canceled := [time.Date 2022 2 12] |}.

(** ** What [RepeatEventAnnually] computes for a positive number *)

(** How many events the forward loop appends: none unless the first
    repeat, [numberOfYears] days after the event's start, is at or after
    [start]; otherwise one for every whole multiple of [numberOfYears]
    days that fits between the start and the end of the event. *)
Definition forwardRepeats (e : Event) (numberOfYears : Z) (start : time.Time) : Z :=
  if start <=? AddDateDays (Start e) numberOfYears
  then (End e - Start e) / (numberOfYears * time.nsPerDay)
  else 0.

(** The k-th forward repeat. *)
Definition forwardRepeat (e : Event) (numberOfYears k : Z) : Event :=
  {| Start := AddDateDays (Start e) (k * numberOfYears);
     End := AddDateDays (Start e) ((k + 1) * numberOfYears);
     Name := Name e ++ " (forward)" |}.

(** An event of the earlier version, for the examples. *)
Definition legacyEvent : legacy.Event := legacy.mkEvent 0 1 "one" 0.

(** * Properties *)

(** ** The model of [time] agrees with known dates *)

Example Date_epoch : time.Date 1970 1 1 = 0.
Proof. reflexivity. Qed.

Example Date_2020_02_13 : time.Date 2020 2 13 = 1581552000 * time.Second.
Proof. reflexivity. Qed.

Example dateOf_Date_leap_day : dateOf (time.Date 2024 2 29) = (2024, 2, 29).
Proof. reflexivity. Qed.

Example year_of_365_days : time.mul (time.mul 24 time.Hour) 365 = 365 * time.nsPerDay.
Proof. reflexivity. Qed.

(** ** Reading the boolean tests of the source as propositions *)

Ltac unbool :=
  unfold time.Before, time.After, time.Equal in *;
  repeat match goal with
    | H : negb _ = true |- _ => apply negb_true_iff in H
    | H : negb _ = false |- _ => apply negb_false_iff in H
    | H : _ && _ = true |- _ => apply andb_true_iff in H; destruct H
    | H : _ && _ = false |- _ => apply andb_false_iff in H
    | H : _ || _ = true |- _ => apply orb_true_iff in H
    | H : _ || _ = false |- _ => apply orb_false_iff in H; destruct H
    | H : (_ <? _) = true |- _ => apply Z.ltb_lt in H
    | H : (_ <? _) = false |- _ => apply Z.ltb_ge in H
    | H : (_ <=? _) = true |- _ => apply Z.leb_le in H
    | H : (_ <=? _) = false |- _ => apply Z.leb_gt in H
    | H : (_ =? _) = true |- _ => apply Z.eqb_eq in H
    | H : (_ =? _) = false |- _ => apply Z.eqb_neq in H
    end.

(** Splits on every comparison of instants that occurs in the goal. *)
Ltac split_comparisons :=
  unfold time.Before, time.After, time.Equal;
  repeat match goal with
    | |- context [?a <? ?b] => destruct (Z.ltb_spec a b)
    | |- context [?a =? ?b] => destruct (Z.eqb_spec a b)
    end;
  cbn [andb orb negb].

(** ** [isOverlap] *)

(** The exact condition under which [isOverlap] answers [false]. *)
Lemma isOverlap_false_iff (e1 e2 : Event) :
  isOverlap e1 e2 = false <->
  (Start e1 < Start e2 /\ End e1 < Start e2) \/
  (Start e2 < Start e1 /\ End e2 < Start e1) \/
  (Start e1 < Start e2 /\ Start e2 = End e1 /\ End e1 < End e2).
Proof.
  unfold isOverlap. split_comparisons; split; intros; try discriminate; try reflexivity; lia.
Qed.

(** An event always "overlaps" itself, valid or not. *)
Lemma isOverlap_refl (e : Event) : isOverlap e e = true.
Proof.
  destruct (isOverlap e e) eqn:E; [reflexivity|].
  apply isOverlap_false_iff in E. lia.
Qed.

(** Touching events of positive length, lower one first: no overlap. *)
Lemma isOverlap_touching (a b : Event) :
  Start a < End a -> End a = Start b -> Start b < End b ->
  isOverlap a b = false.
Proof. intros. apply isOverlap_false_iff. lia. Qed.

(** Touching events in the other argument order: reported as
    overlapping, whatever their lengths. *)
Lemma isOverlap_touching_reversed (a b : Event) :
  valid a -> valid b -> End a = Start b -> isOverlap b a = true.
Proof.
  unfold valid. intros Ha Hb Hab.
  destruct (isOverlap b a) eqn:E; [reflexivity|].
  apply isOverlap_false_iff in E. lia.
Qed.

(** ** [reduceEvents] *)

(** Case analysis along the [if] chain of [reduceEvents]: every test is
    destructed in the order of the source. *)
Ltac reduceEvents_cases :=
  unfold reduceEvents;
  repeat match goal with
    | |- context [if ?c then _ else _] => destruct c eqn:?
    end.

Lemma reduceEvents_second (e1 e2 : Event) (l1 l2 : list Event) :
  reduceEvents e1 e2 = Returned (l1, l2) -> l2 = [e2].
Proof.
  reduceEvents_cases; intros H; inversion H; reflexivity.
Qed.

Lemma reduceEvents_first_length (e1 e2 : Event) (l1 l2 : list Event) :
  reduceEvents e1 e2 = Returned (l1, l2) -> 0 <= len l1 <= 2.
Proof.
  reduceEvents_cases; intros H; inversion H; cbn; lia.
Qed.

(** The exact inputs, among valid events, on which [reduceEvents]
    reaches its final [panic]: the two events end together without
    starting together, or [e1] starts exactly where [e2] ends and
    extends beyond it. *)
Lemma reduceEvents_panics_iff (e1 e2 : Event) :
  valid e1 -> valid e2 ->
  (reduceEvents e1 e2 = Panicked MissedSomething <->
   (Start e1 <> Start e2 /\ End e1 = End e2) \/
   (Start e2 < Start e1 /\ Start e1 = End e2 /\ End e2 < End e1)).
Proof.
  unfold valid. intros V1 V2.
  destruct (isOverlap e1 e2) eqn:O.
  - assert (N : ~ ((Start e1 < Start e2 /\ End e1 < Start e2) \/
                   (Start e2 < Start e1 /\ End e2 < Start e1) \/
                   (Start e1 < Start e2 /\ Start e2 = End e1 /\ End e1 < End e2))).
    { intros C. apply isOverlap_false_iff in C. congruence. }
    unfold reduceEvents. rewrite O. cbn [negb].
    split_comparisons; split; intros; try discriminate; try reflexivity; lia.
  - unfold reduceEvents. rewrite O. cbn [negb].
    apply isOverlap_false_iff in O. split; [discriminate | lia].
Qed.

(** C2, evaluated at a failing input.  The events [0,2) and [1,2) are
    both valid and end together; [reduceEvents] matches none of its
    cases on them and reaches the [panic] that closes the function. *)
Theorem reduceEvents_same_end_panics :
  valid (ev 0 2) /\ valid (ev 1 2) /\
  reduceEvents (ev 0 2) (ev 1 2) = Panicked MissedSomething.
Proof.
  unfold valid. cbn. repeat split; discriminate.
Qed.

(** C4: whenever [reduceEvents] returns on two valid events, its second
    result is the one-element list holding [e2] itself, with [Start],
    [End] and [Name] untouched. *)
Theorem reduceEvents_keeps_higher_priority (e1 e2 : Event) (l1 l2 : list Event) :
  valid e1 -> valid e2 ->
  reduceEvents e1 e2 = Returned (l1, l2) ->
  l2 = [e2].
Proof.
  intros _ _ H. exact (reduceEvents_second e1 e2 l1 l2 H).
Qed.

Lemma reduceEvents_keeps_higher_priority_witness :
  reduceEvents (mkEvent 0 5 "one") (mkEvent 1 2 "two")
  = Returned ([mkEvent 0 1 "one"; mkEvent 2 5 "one"], [mkEvent 1 2 "two"])
  /\ [mkEvent 1 2 "two"] = [mkEvent 1 2 "two"].
Proof.
  split; [reflexivity|].
  apply (reduceEvents_keeps_higher_priority (mkEvent 0 5 "one") (mkEvent 1 2 "two")
           [mkEvent 0 1 "one"; mkEvent 2 5 "one"] [mkEvent 1 2 "two"]).
  - unfold valid; cbn; lia.
  - unfold valid; cbn; lia.
  - reflexivity.
Defined.

(** C7: whenever [reduceEvents] returns on two valid events, the two
    returned lists hold between 1 and 3 events in total. *)
Theorem reduceEvents_fragment_bound (e1 e2 : Event) (l1 l2 : list Event) :
  valid e1 -> valid e2 ->
  reduceEvents e1 e2 = Returned (l1, l2) ->
  1 <= len l1 + len l2 <= 3.
Proof.
  intros _ _ H.
  pose proof (reduceEvents_first_length e1 e2 l1 l2 H) as L1.
  rewrite (reduceEvents_second e1 e2 l1 l2 H). cbn. lia.
Qed.

Lemma reduceEvents_fragment_bound_witness :
  1 <= len [ev 0 1; ev 2 5] + len [ev 1 2] <= 3.
Proof.
  apply (reduceEvents_fragment_bound (ev 0 5) (ev 1 2)).
  - unfold valid; cbn; lia.
  - unfold valid; cbn; lia.
  - reflexivity.
Defined.

(** C10: whenever [reduceEvents] returns on two valid events, every
    event of its first result is a sub-interval of [e1] (it starts no
    earlier, ends no later, and does not end before it starts) and
    carries the name of [e1]. *)
Theorem reduceEvents_first_contained (e1 e2 : Event) (l1 l2 : list Event) :
  valid e1 -> valid e2 ->
  reduceEvents e1 e2 = Returned (l1, l2) ->
  Forall (fragmentOf e1) l1.
Proof.
  unfold valid, fragmentOf. intros V1 V2.
  reduceEvents_cases; intros H; inversion H; subst; unbool;
    repeat constructor; cbn; lia.
Qed.

Lemma reduceEvents_first_contained_witness :
  Forall (fragmentOf (mkEvent 0 5 "one")) [mkEvent 0 1 "one"; mkEvent 2 5 "one"].
Proof.
  apply (reduceEvents_first_contained (mkEvent 0 5 "one") (mkEvent 1 2 "two")
           [mkEvent 0 1 "one"; mkEvent 2 5 "one"] [mkEvent 1 2 "two"]).
  - unfold valid; cbn; lia.
  - unfold valid; cbn; lia.
  - reflexivity.
Defined.

(** ** Slices *)

Lemma len_nonneg {A : Type} (s : list A) : 0 <= len s.
Proof. unfold len. lia. Qed.

Lemma index_in_range {A : Type} (s : list A) (i : Z) :
  0 <= i < len s -> exists a, index s i = Returned a.
Proof.
  unfold index, len. intros H.
  destruct (0 <=? i) eqn:E1; destruct (i <? Z.of_nat (List.length s)) eqn:E2;
    unbool; try lia.
  cbn [andb]. destruct (nth_error s (Z.to_nat i)) eqn:E; eauto.
  apply nth_error_None in E. lia.
Qed.

(** When [slices.Replace] returns, its bounds were valid and the length
    of the result is that of the source, minus the elements replaced,
    plus the elements put in their place. *)
Lemma Replace_returned {A : Type} (s s' : list A) (i j : Z) (v : list A) :
  slices.Replace s i j v = Returned s' ->
  0 <= i <= j /\ j <= len s /\ len s' = len s - (j - i) + len v.
Proof.
  unfold slices.Replace.
  destruct ((0 <=? i) && (i <=? j) && (j <=? len s)) eqn:E; [|discriminate].
  intros H; inversion H; subst. unbool. unfold len in *.
  rewrite !length_app, length_firstn, length_skipn. lia.
Qed.

(** ** The loop of [ReduceAllEvents] *)

(** From a confined state an iteration never leaves the loop: it
    panics, or continues in a confined state.  At [i = 0] a
    non-overlapping pair moves [i] to 1; at [i = 1 = j] the event is
    compared with itself, which [isOverlap] reports as an overlap, and
    the indices are reset to [0, 1]. *)
Lemma loopBody_confined (processedEvents : list Event) (i j : Z) :
  confined processedEvents i j ->
  match loopBody processedEvents i j with
  | Returned (Break _) => False
  | Returned (Continue processedEvents' i' j') => confined processedEvents' i' j'
  | Panicked _ => True
  | OutOfFuel => True
  end.
Proof.
  intros (L & -> & Hi). unfold loopBody.
  destruct (Z.eqb_spec 1 (len processedEvents)); [lia|].
  destruct (Z.eqb_spec i (len processedEvents)); [lia|].
  cbv beta iota.
  destruct (Z.eqb_spec i (len processedEvents - 2));
    destruct (Z.eqb_spec 1 (len processedEvents)); try lia; cbn [andb].
  all: destruct (index_in_range processedEvents i) as [ei Ei]; [lia|];
       destruct (index_in_range processedEvents 1) as [ej Ej]; [lia|];
       rewrite Ei; cbn [bind]; rewrite Ej; cbn [bind].
  all: destruct (isOverlap ei ej) eqn:O; cbn [negb].
  all: try (destruct Hi as [-> | ->];
            [ unfold confined; lia
            | rewrite Ei in Ej; injection Ej as ->;
              rewrite isOverlap_refl in O; discriminate ]).
  all: destruct (reduceEvents ei ej) as [[u1 u2]| |] eqn:R; cbn [bind]; auto.
  all: destruct (slices.Replace processedEvents i (i + 1) u1) as [pe1| |] eqn:R1;
       cbn [bind]; auto.
  all: destruct (slices.Replace pe1 (1 + len u1) (1 + len u1 + 1) u2) as [pe2| |] eqn:R2;
       cbn [bind]; auto.
  all: pose proof (reduceEvents_first_length _ _ _ _ R);
       apply reduceEvents_second in R; subst u2;
       apply Replace_returned in R1; apply Replace_returned in R2;
       change (len [ej]) with 1 in R2; unfold confined; lia.
Qed.

(** Hence, from a confined state, the loop never terminates normally,
    whatever the fuel: it panics or runs on. *)
Lemma reduceLoop_never_returns (fuel : nat) :
  forall (processedEvents : list Event) (i j : Z) (res : list Event),
    confined processedEvents i j ->
    reduceLoop fuel processedEvents i j <> Returned res.
Proof.
  induction fuel as [|fuel IH]; intros pe i j res C; cbn [reduceLoop].
  - discriminate.
  - pose proof (loopBody_confined pe i j C) as B.
    destruct (loopBody pe i j) as [[pe' i' j'|pe']| |]; cbn [bind].
    + apply IH. exact B.
    + contradiction.
    + discriminate.
    + discriminate.
Qed.

(** [ReduceAllEvents] returns exactly on the inputs of fewer than two
    events, which it hands back with a [nil] error; on two events or
    more it panics or does not terminate. *)
Lemma ReduceAllEvents_returns_iff (events : list Event)
    (res : list Event * option error) :
  (exists fuel, ReduceAllEvents fuel events = Returned res) <->
  (len events < 2 /\ res = (events, None)).
Proof.
  unfold ReduceAllEvents. split.
  - intros [fuel H]. destruct (Z.ltb_spec (len events) 2).
    + split; [assumption | congruence].
    + exfalso.
      destruct (reduceLoop fuel events 0 1) as [r| |] eqn:E; cbn [bind] in H;
        try discriminate.
      apply (reduceLoop_never_returns fuel events 0 1 r); [|exact E].
      unfold confined. lia.
  - intros [L ->]. exists 0%nat.
    destruct (Z.ltb_spec (len events) 2); [reflexivity | lia].
Qed.

Lemma ReduceAllEvents_two_or_more_never_returns (fuel : nat) (events : list Event)
    (res : list Event * option error) :
  2 <= len events -> ReduceAllEvents fuel events <> Returned res.
Proof.
  intros L H.
  assert (E : exists fuel, ReduceAllEvents fuel events = Returned res) by eauto.
  apply ReduceAllEvents_returns_iff in E. lia.
Qed.

(** An input on which the loop runs forever: the zero-length event
    [0,0) shares its start with [0,1), the pair is "reduced" to itself,
    the third event is overwritten, and the scan restarts on the same
    list. *)
Lemma ReduceAllEvents_diverges (fuel : nat) :
  ReduceAllEvents fuel [ev 0 1; ev 0 0; ev 4 5] = OutOfFuel.
Proof.
  assert (Fix1 : forall n, reduceLoop n [ev 0 1; ev 0 0; ev 0 0] 0 1 = OutOfFuel).
  { induction n as [|n IH]; [reflexivity|].
    cbn [reduceLoop].
    change (loopBody [ev 0 1; ev 0 0; ev 0 0] 0 1)
      with (Returned (Continue [ev 0 1; ev 0 0; ev 0 0] 0 1)).
    cbn [bind]. rewrite IH. reflexivity. }
  unfold ReduceAllEvents. change (len [ev 0 1; ev 0 0; ev 4 5] <? 2) with false.
  cbv iota. destruct fuel as [|fuel]; [reflexivity|].
  cbn [reduceLoop].
  change (loopBody [ev 0 1; ev 0 0; ev 4 5] 0 1)
    with (Returned (Continue [ev 0 1; ev 0 0; ev 0 0] 0 1)).
  cbn [bind]. rewrite Fix1. reflexivity.
Qed.

(** C1, evaluated at a failing input (the "Simple Overlap" case of
    [TestReduceAllEvents]).  On the valid events [0,2) and [1,3) the
    first pair overlaps and is resolved, but the second
    [slices.Replace] is called at index [j + len(updatedEvents1) = 2]
    of a two-element slice: [ReduceAllEvents] panics instead of
    returning a list free of overlaps. *)
Theorem ReduceAllEvents_simple_overlap_panics :
  Forall valid [ev 0 2; ev 1 3] /\
  forall fuel : nat,
    ReduceAllEvents (S fuel) [ev 0 2; ev 1 3] = Panicked SliceBoundsOutOfRange.
Proof.
  split.
  - repeat constructor; unfold valid; cbn; lia.
  - intros fuel. reflexivity.
Qed.

(** C3, evaluated at a failing input.  The valid events [a = [0,1)] and
    [b = [1,2)] touch at [a.End = b.Start].  [isOverlap(a, b)] is
    false, but [isOverlap(b, a)] is true, and reducing the list [a, b]
    panics: after the pair (a, b) is found disjoint, the scan compares
    [b] with itself, takes it for an overlap, and the replacement that
    follows is out of bounds. *)
Theorem touching_events_not_preserved :
  valid (ev 0 1) /\ valid (ev 1 2) /\ End (ev 0 1) = Start (ev 1 2) /\
  isOverlap (ev 0 1) (ev 1 2) = false /\
  isOverlap (ev 1 2) (ev 0 1) = true /\
  forall fuel : nat,
    ReduceAllEvents (S (S fuel)) [ev 0 1; ev 1 2] = Panicked SliceBoundsOutOfRange.
Proof.
  unfold valid. cbn [Start End ev].
  repeat split; try lia; try reflexivity.
Qed.

(** C8, evaluated at a failing input (the "Multiple Non-overlapping
    Events" case of [TestReduceAllEvents]).  The list [0,1), [2,3),
    [4,5) has no overlap at all, yet [ReduceAllEvents] panics on it, and
    so does the twofold application: there is no result to compare. *)
Theorem ReduceAllEvents_twice_panics :
  Forall valid [ev 0 1; ev 2 3; ev 4 5] /\
  forall fuel : nat,
    ReduceAllEvents (4 + fuel) [ev 0 1; ev 2 3; ev 4 5]
      = Panicked SliceBoundsOutOfRange /\
    ReduceAllEventsTwice (4 + fuel) [ev 0 1; ev 2 3; ev 4 5]
      = Panicked SliceBoundsOutOfRange.
Proof.
  split.
  - repeat constructor; unfold valid; cbn; lia.
  - intros fuel. split; reflexivity.
Qed.

(** On the inputs where [ReduceAllEvents] does return, a second
    application returns the same result. *)
Lemma ReduceAllEvents_idempotent_where_defined (fuel : nat) (events res : list Event)
    (err : option error) :
  ReduceAllEvents fuel events = Returned (res, err) ->
  ReduceAllEventsTwice fuel events = Returned (res, err).
Proof.
  intros H. unfold ReduceAllEventsTwice. rewrite H. cbn [bind].
  assert (E : exists fuel, ReduceAllEvents fuel events = Returned (res, err)) by eauto.
  apply ReduceAllEvents_returns_iff in E. destruct E as [L E].
  inversion E; subst. exact H.
Qed.

(** C9: whenever [ReduceAllEvents] returns, the error it returns is
    [nil]; both [return] statements of the function pass [nil]. *)
Theorem ReduceAllEvents_error_nil (fuel : nat) (events res : list Event)
    (err : option error) :
  ReduceAllEvents fuel events = Returned (res, err) -> err = None.
Proof.
  unfold ReduceAllEvents.
  destruct (len events <? 2).
  - intros H; inversion H; reflexivity.
  - destruct (reduceLoop fuel events 0 1); cbn [bind]; intros H; inversion H; reflexivity.
Qed.

Lemma ReduceAllEvents_error_nil_witness :
  ReduceAllEvents 0 [ev 0 1] = Returned ([ev 0 1], None) /\
  (None : option error) = None.
Proof.
  split; [reflexivity|].
  apply (ReduceAllEvents_error_nil 0 [ev 0 1] [ev 0 1] None). reflexivity.
Defined.

(** The [if err != nil] branch of [View] is therefore never taken. *)
Lemma View_error_nil (fuel : nat) (c : Calendar) (viewStart viewEnd : time.Time)
    (res : list Event) (err : option error) :
  View fuel c viewStart viewEnd = Returned (res, err) -> err = None.
Proof.
  unfold View.
  destruct (viewEntries fuel (Entries c) viewStart viewEnd []); cbn [bind];
    try discriminate.
  destruct (ReduceAllEvents fuel a) as [[r e]| |] eqn:E; cbn [bind];
    try discriminate.
  destruct e as [e|]; intros H; inversion H; [exfalso | reflexivity].
  unfold ReduceAllEvents in E.
  destruct (len a <? 2); [discriminate|].
  destruct (reduceLoop fuel a 0 1); cbn [bind] in E; discriminate.
Qed.

(** ** [Rule.Expand] with a zero [RepeatDuration] *)

Section ZeroRepeat.

Variable r : Rule.
Hypothesis zero_repeat : RepeatDuration r = 0.

(** Stepping by a zero duration leaves the instant where it was, so a
    loop that is entered once is entered forever. *)
Lemma expandBackward_zero_repeat (viewStart s : time.Time) :
  viewStart < s ->
  forall (fuel : nat) (e : time.Time) (acc : list Event),
    expandBackward fuel r viewStart s e acc = OutOfFuel.
Proof.
  intros Hs. induction fuel as [|fuel IH]; intros e acc; cbn [expandBackward];
    unfold time.After; destruct (Z.ltb_spec viewStart s); try lia.
  - reflexivity.
  - rewrite zero_repeat. change (time.neg 0) with 0.
    unfold time.Add. rewrite !Z.add_0_r. apply IH.
Qed.

Lemma expandForward_zero_repeat (viewEnd s : time.Time) :
  s < viewEnd ->
  forall (fuel : nat) (e : time.Time) (acc : list Event),
    expandForward fuel r viewEnd s e acc = OutOfFuel.
Proof.
  intros Hs. induction fuel as [|fuel IH]; intros e acc; cbn [expandForward];
    unfold time.Before; destruct (Z.ltb_spec s viewEnd); try lia.
  - reflexivity.
  - rewrite zero_repeat. unfold time.Add. rewrite !Z.add_0_r. apply IH.
Qed.

(** With a zero [RepeatDuration], [Expand] terminates only when
    neither loop is entered, that is when the rule starts at or before
    [viewStart] and at or after [viewEnd]; it then returns no event. *)
Lemma Expand_zero_repeat_returns_iff (viewStart viewEnd : time.Time)
    (res : list Event) :
  (exists fuel, Expand fuel r viewStart viewEnd = Returned res) <->
  (viewEnd <= Start (RuleEvent r) <= viewStart /\ res = []).
Proof.
  unfold Expand. split.
  - intros [fuel H].
    destruct (Z.lt_ge_cases viewStart (Start (RuleEvent r))) as [B|B].
    { rewrite expandBackward_zero_repeat in H by exact B. discriminate. }
    destruct (Z.lt_ge_cases (Start (RuleEvent r)) viewEnd) as [F|F].
    { destruct (expandBackward fuel r viewStart _ _ []); cbn [bind] in H;
        try discriminate.
      rewrite expandForward_zero_repeat in H by exact F. discriminate. }
    split; [lia|].
    destruct fuel; cbn [expandBackward expandForward bind] in H;
      unfold time.After, time.Before in H.
    all: destruct (Z.ltb_spec viewStart (Start (RuleEvent r))); try lia;
         cbn [bind] in H;
         destruct (Z.ltb_spec (Start (RuleEvent r)) viewEnd); try lia;
         congruence.
  - intros [L ->]. exists 0%nat. cbn [expandBackward expandForward].
    unfold time.After, time.Before.
    destruct (Z.ltb_spec viewStart (Start (RuleEvent r))); try lia. cbn [bind].
    destruct (Z.ltb_spec (Start (RuleEvent r)) viewEnd); try lia. reflexivity.
Qed.

End ZeroRepeat.

(** C6, evaluated at a failing input.  The rule holds the valid event
    [1,2) and a zero [RepeatDuration]; the window is [0,10), which the
    event intersects.  [Expand] does not terminate: the backward loop
    steps its start by zero and its condition stays true, so no amount
    of fuel yields a result. *)
Theorem Expand_zero_repeat_diverges :
  valid (ev 1 2) /\ RepeatDuration (onceRule (ev 1 2)) = 0 /\ 0 <= 10 /\
  forall fuel : nat, Expand fuel (onceRule (ev 1 2)) 0 10 = OutOfFuel.
Proof.
  unfold valid. cbn [Start End ev onceRule RepeatDuration].
  repeat split; try lia.
  intros fuel. unfold Expand.
  rewrite (expandBackward_zero_repeat (onceRule (ev 1 2)) eq_refl 0 1); [reflexivity|].
  lia.
Qed.

(** ** More fuel does not change a result of [Rule.Expand] *)

Lemma expandBackward_more_fuel (r : Rule) (viewStart : time.Time) (fuel : nat) :
  forall (s e : time.Time) (acc res : list Event),
    expandBackward fuel r viewStart s e acc = Returned res ->
    forall k : nat, expandBackward (fuel + k) r viewStart s e acc = Returned res.
Proof.
  induction fuel as [|fuel IH]; intros s e acc res H k; cbn [expandBackward] in H.
  - destruct (time.After s viewStart) eqn:E; [discriminate|].
    destruct k; cbn [Nat.add expandBackward]; rewrite E; exact H.
  - cbn [Nat.add expandBackward].
    destruct (time.After s viewStart); [apply IH; exact H | exact H].
Qed.

Lemma expandForward_more_fuel (r : Rule) (viewEnd : time.Time) (fuel : nat) :
  forall (s e : time.Time) (acc res : list Event),
    expandForward fuel r viewEnd s e acc = Returned res ->
    forall k : nat, expandForward (fuel + k) r viewEnd s e acc = Returned res.
Proof.
  induction fuel as [|fuel IH]; intros s e acc res H k; cbn [expandForward] in H.
  - destruct (time.Before s viewEnd) eqn:E; [discriminate|].
    destruct k; cbn [Nat.add expandForward]; rewrite E; exact H.
  - cbn [Nat.add expandForward].
    destruct (time.Before s viewEnd); [apply IH; exact H | exact H].
Qed.

Lemma Expand_more_fuel (r : Rule) (viewStart viewEnd : time.Time) (fuel k : nat)
    (res : list Event) :
  Expand fuel r viewStart viewEnd = Returned res ->
  Expand (fuel + k) r viewStart viewEnd = Returned res.
Proof.
  unfold Expand. intros H.
  destruct (expandBackward fuel r viewStart _ _ []) as [back| |] eqn:B;
    cbn [bind] in H; try discriminate.
  rewrite (expandBackward_more_fuel _ _ _ _ _ _ _ B). cbn [bind].
  apply expandForward_more_fuel. exact H.
Qed.

(** ** [Rule.Expand] on the rule of [TestExpandEvents] *)

Lemma Expand_birthday (fuel : nat) :
  Expand (6 + fuel) birthdayRule birthdayViewStart birthdayViewEnd
  = Returned birthdayExpansion.
Proof. apply Expand_more_fuel. vm_compute. reflexivity. Qed.

Lemma Expand_birthday_returned (fuel : nat) (res : list Event) :
  Expand fuel birthdayRule birthdayViewStart birthdayViewEnd = Returned res ->
  res = birthdayExpansion.
Proof.
  intros H.
  do 6 (destruct fuel as [|fuel]; [vm_compute in H; discriminate|]).
  change (S (S (S (S (S (S fuel)))))) with (6 + fuel)%nat in H.
  rewrite Expand_birthday in H. congruence.
Qed.

(** No run of [Expand] on the rule and window of [TestExpandEvents]
    returns the five occurrences described. *)
Lemma Expand_birthday_not_five :
  ~ exists (fuel : nat) (res : list Event),
      Expand fuel birthdayRule birthdayViewStart birthdayViewEnd = Returned res /\
      fiveBirthdays res.
Proof.
  intros (fuel & res & H & L & _).
  apply Expand_birthday_returned in H. subst res. vm_compute in L. discriminate.
Qed.

(** The starts: [Expand] on the rule and window of [TestExpandEvents]
    returns exactly six occurrences, one per year from 2020 to 2025,
    whose starts lie 365 days apart: 2020-02-13, 2021-02-12,
    2022-02-12, 2023-02-12, 2024-02-12 and 2025-02-11.  Each carries
    the name of the rule and starts before the forward limit
    2025-02-13; no occurrence starting at or past the limit is
    emitted. *)
Theorem Expand_birthday_starts :
  exists res : list Event,
    (forall fuel : nat,
       Expand (6 + fuel) birthdayRule birthdayViewStart birthdayViewEnd
       = Returned res) /\
    len res = 6 /\
    map (fun e => dateOf (Start e)) res
    = [(2020, 2, 13); (2021, 2, 12); (2022, 2, 12);
       (2023, 2, 12); (2024, 2, 12); (2025, 2, 11)] /\
    map (fun e => Start e - Start (RuleEvent birthdayRule)) res
    = map (fun k => k * (365 * time.nsPerDay)) [0; 1; 2; 3; 4; 5] /\
    Forall (fun e => Name e = Name (RuleEvent birthdayRule) /\
                     Start e < RepeatForwardUntil birthdayRule) res.
Proof.
  exists birthdayExpansion. split; [exact Expand_birthday|].
  split; [reflexivity|]. split; [reflexivity|]. split; [reflexivity|].
  repeat constructor.
Qed.

(** The ends of the six occurrences: the end of the base event is
    stepped before each occurrence is appended, the start after it, so
    every occurrence ends one repeat later than a shifted copy of the
    base event would, 366 days after it starts. *)
Lemma Expand_birthday_ends :
  map (fun e => dateOf (End e)) birthdayExpansion
  = [(2021, 2, 13); (2022, 2, 13); (2023, 2, 13);
     (2024, 2, 13); (2025, 2, 12); (2026, 2, 12)] /\
  Forall (fun e => End e - Start e = 366 * time.nsPerDay) birthdayExpansion.
Proof.
  split; [reflexivity|]. repeat constructor.
Qed.

(** ** The cases of the repository's tests, on the model *)

(** [TestSquashEvents], with [rightNow] at 0 and days as the unit. *)
Example squash_matching_events :
  reduceEvents (mkEvent 0 7 "one") (mkEvent 0 7 "two")
  = Returned ([], [mkEvent 0 7 "two"]).
Proof. reflexivity. Qed.

Example squash_same_start_different_end :
  reduceEvents (mkEvent 0 8 "one") (mkEvent 0 7 "two")
  = Returned ([mkEvent 7 8 "one"], [mkEvent 0 7 "two"]).
Proof. reflexivity. Qed.

Example squash_e2_overwrite :
  reduceEvents (mkEvent 0 7 "one") (mkEvent 0 8 "two")
  = Returned ([], [mkEvent 0 8 "two"]).
Proof. reflexivity. Qed.

Example squash_no_overlap :
  reduceEvents (mkEvent (-5) (-1) "one") (mkEvent 0 8 "two")
  = Returned ([mkEvent (-5) (-1) "one"], [mkEvent 0 8 "two"]).
Proof. reflexivity. Qed.

Example squash_no_overlap_matching_start_and_end :
  reduceEvents (mkEvent (-5) 0 "one") (mkEvent 0 8 "two")
  = Returned ([mkEvent (-5) 0 "one"], [mkEvent 0 8 "two"]).
Proof. reflexivity. Qed.

Example squash_middle_overlap :
  reduceEvents (mkEvent (-5) 2 "one") (mkEvent 0 8 "two")
  = Returned ([mkEvent (-5) 0 "one"], [mkEvent 0 8 "two"]).
Proof. reflexivity. Qed.

(** The first two cases of [TestReduceAllEvents] return their input. *)
Example reduce_all_empty : ReduceAllEvents 0 [] = Returned ([], None).
Proof. reflexivity. Qed.

Example reduce_all_single : ReduceAllEvents 0 [ev 0 1] = Returned ([ev 0 1], None).
Proof. reflexivity. Qed.

(** A pair that [reduceEvents] does not handle makes [ReduceAllEvents]
    panic with the message of [reduceEvents]; no error value is
    produced. *)
Example reduce_all_unhandled_pair (fuel : nat) :
  ReduceAllEvents (S fuel) [ev 0 2; ev 1 2; ev 5 6] = Panicked MissedSomething.
Proof. reflexivity. Qed.

(** Where [ReduceAllEvents] returns, no two positions of its result
    hold overlapping events: the result has at most one event. *)
Lemma ReduceAllEvents_no_overlap_where_defined (fuel : nat) (events res : list Event)
    (err : option error) :
  ReduceAllEvents fuel events = Returned (res, err) ->
  forall (i j : nat) (a b : Event),
    i <> j -> nth_error res i = Some a -> nth_error res j = Some b ->
    isOverlap a b = false.
Proof.
  intros H i j a b Hij Ha Hb. exfalso.
  assert (E : exists fuel, ReduceAllEvents fuel events = Returned (res, err)) by eauto.
  apply ReduceAllEvents_returns_iff in E. destruct E as [L E]. inversion E; subst.
  assert (Hi : (i < List.length events)%nat) by (apply nth_error_Some; congruence).
  assert (Hj : (j < List.length events)%nat) by (apply nth_error_Some; congruence).
  unfold len in L. lia.
Qed.

(** * Further properties of the code *)

(** ** [isOverlap], continued *)

Lemma isOverlap_true_iff (e1 e2 : Event) :
  isOverlap e1 e2 = true <->
  ~ ((Start e1 < Start e2 /\ End e1 < Start e2) \/
     (Start e2 < Start e1 /\ End e2 < Start e1) \/
     touching e1 e2).
Proof.
  rewrite <- isOverlap_false_iff. destruct (isOverlap e1 e2); split; congruence.
Qed.

(** X1: when [isOverlap] answers [false], there is no instant at which
    both events are active; the answer [false] is never wrong. *)
Theorem isOverlap_false_sound (e1 e2 : Event) :
  isOverlap e1 e2 = false ->
  forall t : time.Time, ~ (active e1 t /\ active e2 t).
Proof.
  intros H t. apply isOverlap_false_iff in H. unfold active. lia.
Qed.

Lemma isOverlap_false_sound_witness :
  ~ (active (ev 0 1) 0 /\ active (ev 1 2) 0).
Proof.
  apply (isOverlap_false_sound (ev 0 1) (ev 1 2)). reflexivity.
Defined.

(** X2: [isOverlap] gives the same answer in both argument orders
    exactly on the pairs that do not touch.  On a touching pair, where
    one event starts first and the other begins at its end and ends
    later, it answers [false] with the earlier event as first argument
    and [true] with the later event as first argument. *)
Theorem isOverlap_symmetric_iff (e1 e2 : Event) :
  (isOverlap e1 e2 = isOverlap e2 e1 <-> ~ (touching e1 e2 \/ touching e2 e1)) /\
  (touching e1 e2 -> isOverlap e1 e2 = false /\ isOverlap e2 e1 = true).
Proof.
  split.
  - destruct (isOverlap e1 e2) eqn:A; destruct (isOverlap e2 e1) eqn:B.
    + apply isOverlap_true_iff in A. apply isOverlap_true_iff in B.
      split; [intros _ | reflexivity]. tauto.
    + apply isOverlap_true_iff in A. apply isOverlap_false_iff in B.
      split; [discriminate|]. intros N. exfalso. unfold touching in *. lia.
    + apply isOverlap_false_iff in A. apply isOverlap_true_iff in B.
      split; [discriminate|]. intros N. exfalso. unfold touching in *. lia.
    + apply isOverlap_false_iff in A. apply isOverlap_false_iff in B.
      split; [intros _ | reflexivity]. unfold touching in *. lia.
  - intros T. split.
    + apply isOverlap_false_iff. right. right. exact T.
    + apply isOverlap_true_iff. unfold touching in *. lia.
Qed.

Lemma isOverlap_symmetric_iff_witness :
  isOverlap (ev 0 1) (ev 1 2) = false /\ isOverlap (ev 1 2) (ev 0 1) = true.
Proof.
  apply (proj2 (isOverlap_symmetric_iff (ev 0 1) (ev 1 2))).
  unfold touching. cbn. lia.
Defined.

(** ** [reduceEvents], continued *)

Lemma reduceEvents_never_out_of_fuel (e1 e2 : Event) :
  reduceEvents e1 e2 <> OutOfFuel.
Proof. reduceEvents_cases; discriminate. Qed.

Lemma reduceEvents_panic_kind (e1 e2 : Event) (p : panic) :
  reduceEvents e1 e2 = Panicked p -> p = MissedSomething.
Proof. reduceEvents_cases; intros H; inversion H; reflexivity. Qed.

(** X3: on valid events [reduceEvents] either returns, with [e2] alone
    in its second list, or panics with "missed something here"; it
    panics exactly when the two events end together without starting
    together, or when [e2] starts strictly before [e1] and [e1] begins
    at the end of [e2] and ends later. *)
Theorem reduceEvents_returns_or_panics (e1 e2 : Event) :
  valid e1 -> valid e2 ->
  (unhandled e1 e2 /\ reduceEvents e1 e2 = Panicked MissedSomething) \/
  (~ unhandled e1 e2 /\ exists l1, reduceEvents e1 e2 = Returned (l1, [e2])).
Proof.
  intros V1 V2.
  pose proof (reduceEvents_panics_iff e1 e2 V1 V2) as P.
  fold (touching e2 e1) in P. fold (unhandled e1 e2) in P.
  destruct (reduceEvents e1 e2) as [[l1 l2]|p|] eqn:R.
  - right. split.
    + intros U. apply P in U. discriminate.
    + exists l1. rewrite (reduceEvents_second _ _ _ _ R). reflexivity.
  - left. rewrite (reduceEvents_panic_kind _ _ _ R) in *.
    split; [apply P|]; reflexivity.
  - exfalso. exact (reduceEvents_never_out_of_fuel _ _ R).
Qed.

Lemma reduceEvents_returns_or_panics_witness :
  (unhandled (ev 1 2) (ev 0 1) /\
   reduceEvents (ev 1 2) (ev 0 1) = Panicked MissedSomething) \/
  (~ unhandled (ev 1 2) (ev 0 1) /\
   exists l1, reduceEvents (ev 1 2) (ev 0 1) = Returned (l1, [ev 0 1])).
Proof.
  apply (reduceEvents_returns_or_panics (ev 1 2) (ev 0 1)).
  - unfold valid; cbn; lia.
  - unfold valid; cbn; lia.
Defined.

(** X4: when [reduceEvents] returns on valid events, the fragments in
    its first list are active exactly at the instants where [e1] is
    active and [e2] is not.  With [e2] returned whole, no instant of
    either event is lost, none is added, and every instant claimed by
    both goes to [e2]. *)
Theorem reduceEvents_partition (e1 e2 : Event) (l1 l2 : list Event) :
  valid e1 -> valid e2 ->
  reduceEvents e1 e2 = Returned (l1, l2) ->
  forall t : time.Time,
    Exists (fun f => active f t) l1 <-> (active e1 t /\ ~ active e2 t).
Proof.
  unfold valid. intros V1 V2 R t.
  destruct (isOverlap e1 e2) eqn:O.
  - apply isOverlap_true_iff in O. unfold touching in O.
    revert R. unfold reduceEvents.
    replace (isOverlap e1 e2) with true
      by (symmetry; apply isOverlap_true_iff; exact O).
    cbn [negb].
    repeat match goal with
      | |- context [if ?c then _ else _] => destruct c eqn:?
      end; intros R; inversion R; subst; unbool;
      rewrite ?Exists_cons, ?Exists_nil; unfold active; cbn [Start End withStart withEnd];
      lia.
  - unfold reduceEvents in R. rewrite O in R. cbn [negb] in R.
    inversion R; subst. apply isOverlap_false_iff in O.
    rewrite Exists_cons, Exists_nil. unfold active, touching in *. lia.
Qed.

Lemma reduceEvents_partition_witness :
  Exists (fun f => active f 3) [ev 0 1; ev 2 5] <->
  (active (ev 0 5) 3 /\ ~ active (ev 1 2) 3).
Proof.
  apply (reduceEvents_partition (ev 0 5) (ev 1 2) [ev 0 1; ev 2 5] [ev 1 2]).
  - unfold valid; cbn; lia.
  - unfold valid; cbn; lia.
  - reflexivity.
Defined.

(** ** The property checked by [TestSquashEvents_Property] *)

(** Every event that [reduceEvents] returns lies within the span of the
    two events it was given. *)
Lemma reduceEvents_within_span (e1 e2 : Event) (l1 l2 : list Event) :
  valid e1 -> valid e2 ->
  reduceEvents e1 e2 = Returned (l1, l2) ->
  forall g, In g (l1 ++ l2) ->
    Z.min (Start e1) (Start e2) <= Start g /\ End g <= Z.max (End e1) (End e2).
Proof.
  unfold valid. intros V1 V2.
  reduceEvents_cases; intros H; inversion H; subst; unbool; cbn [app In];
    intros g Hg; repeat (destruct Hg as [Hg|Hg]; [subst g; cbn; lia|]);
    contradiction.
Qed.

(** X5: the function that [TestSquashEvents_Property] hands to
    [quick.Check] never returns [false]: for all four millisecond
    arguments it returns [true], unless [reduceEvents] panics on the two
    events built from them, which happens exactly when the two spans
    share their later bound but not their earlier one, or when the
    second span begins strictly before the first and the first begins
    where the second ends and extends beyond it. *)
Theorem squashProperty_true_or_panics (e1s e1e e2s e2e : Z) :
  let s1 := Z.min e1s e1e in
  let f1 := Z.max e1s e1e in
  let s2 := Z.min e2s e2e in
  let f2 := Z.max e2s e2e in
  let gap := (s1 <> s2 /\ f1 = f2) \/ (s2 < s1 /\ s1 = f2 /\ f2 < f1) in
  (gap /\ squashProperty e1s e1e e2s e2e = Panicked MissedSomething) \/
  (~ gap /\ squashProperty e1s e1e e2s e2e = Returned true).
Proof.
  intros s1 f1 s2 f2 gap. unfold squashProperty.
  set (e1 := if time.Before (UnixMilli e1s) (UnixMilli e1e)
             then mkEvent (UnixMilli e1s) (UnixMilli e1e) ""
             else mkEvent (UnixMilli e1e) (UnixMilli e1s) "").
  set (e2 := if time.Before (UnixMilli e2s) (UnixMilli e2e)
             then mkEvent (UnixMilli e2s) (UnixMilli e2e) ""
             else mkEvent (UnixMilli e2e) (UnixMilli e2s) "").
  assert (B1 : Start e1 = UnixMilli s1 /\ End e1 = UnixMilli f1).
  { subst e1 s1 f1. unfold time.Before, UnixMilli.
    destruct (Z.ltb_spec (e1s * 1000000) (e1e * 1000000)); cbn [Start End]; lia. }
  assert (B2 : Start e2 = UnixMilli s2 /\ End e2 = UnixMilli f2).
  { subst e2 s2 f2. unfold time.Before, UnixMilli.
    destruct (Z.ltb_spec (e2s * 1000000) (e2e * 1000000)); cbn [Start End]; lia. }
  clearbody e1 e2. destruct B1 as [S1 F1]. destruct B2 as [S2 F2].
  assert (V1 : valid e1) by (unfold valid, UnixMilli in *; lia).
  assert (V2 : valid e2) by (unfold valid, UnixMilli in *; lia).
  assert (G : gap <-> (Start e1 <> Start e2 /\ End e1 = End e2) \/
                      (Start e2 < Start e1 /\ Start e1 = End e2 /\ End e2 < End e1)).
  { subst gap. unfold UnixMilli in *. lia. }
  pose proof (reduceEvents_panics_iff e1 e2 V1 V2) as P.
  destruct (reduceEvents e1 e2) as [[l1 l2]|p|] eqn:R; cbn [bind].
  - right. split; [intros C; apply G, P in C; discriminate|].
    pose proof (reduceEvents_first_length _ _ _ _ R) as L1.
    pose proof (reduceEvents_within_span e1 e2 l1 l2 V1 V2 R) as W.
    pose proof (reduceEvents_second _ _ _ _ R). subst l2.
    change (len [e2]) with 1.
    destruct (Z.leb_spec (len l1 + 1) 0); [lia|].
    destruct (Z.ltb_spec 3 (len l1 + 1)); [lia|].
    assert (N : forall l, (forall g, In g l -> In g (l1 ++ [e2])) ->
      existsb (exceeds (if time.After (Start e1) (Start e2) then Start e2 else Start e1)
                       (if time.Before (End e1) (End e2) then End e2 else End e1)) l
      = false).
    { intros l Hl.
      destruct (existsb _ l) eqn:E; [exfalso | reflexivity].
      apply existsb_exists in E. destruct E as (g & Hg & Hx).
      apply Hl, W in Hg. revert Hx. unfold exceeds, time.After, time.Before.
      destruct (Z.ltb_spec (Start e2) (Start e1));
        destruct (Z.ltb_spec (End e1) (End e2)); intros Hx; unbool;
        destruct Hx as [Hx|Hx]; unbool; lia. }
    rewrite (N l1) by (intros g Hg; apply in_or_app; left; exact Hg).
    rewrite (N [e2]) by (intros g Hg; apply in_or_app; right; exact Hg).
    reflexivity.
  - left. rewrite (reduceEvents_panic_kind _ _ _ R) in *.
    split; [apply G, P|]; reflexivity.
  - exfalso. exact (reduceEvents_never_out_of_fuel _ _ R).
Qed.

(** ** The scan of [ReduceAllEvents], step by step *)

Lemma len_cons {A : Type} (a : A) (s : list A) : len (a :: s) = 1 + len s.
Proof. unfold len. cbn [List.length]. lia. Qed.

Lemma len_app {A : Type} (s t : list A) : len (s ++ t) = len s + len t.
Proof. unfold len. rewrite length_app. lia. Qed.

(** The iteration at [i = 0], [j = 1]. *)
Lemma loopBody_first_pair (a b : Event) (rest : list Event) :
  loopBody (a :: b :: rest) 0 1 =
  if negb (isOverlap a b) then Returned (Continue (a :: b :: rest) 1 1)
  else
    '(updatedEvents1, updatedEvents2) <- reduceEvents a b ;;
    processedEvents <-
      slices.Replace (updatedEvents1 ++ b :: rest) (1 + len updatedEvents1)
        (1 + len updatedEvents1 + 1) updatedEvents2 ;;
    Returned (Continue processedEvents 0 1).
Proof.
  unfold loopBody. pose proof (len_nonneg rest) as L.
  rewrite !len_cons.
  destruct (Z.eqb_spec 1 (1 + (1 + len rest))); [lia|].
  destruct (Z.eqb_spec 0 (1 + (1 + len rest))); [lia|].
  cbv beta iota.
  destruct (Z.eqb_spec 1 (1 + (1 + len rest))); [lia|].
  rewrite andb_false_r.
  assert (I0 : index (a :: b :: rest) 0 = Returned a).
  { unfold index. rewrite !len_cons.
    destruct (Z.ltb_spec 0 (1 + (1 + len rest))); [reflexivity | lia]. }
  assert (I1 : index (a :: b :: rest) 1 = Returned b).
  { unfold index. rewrite !len_cons.
    destruct (Z.ltb_spec 1 (1 + (1 + len rest))); [reflexivity | lia]. }
  rewrite I0, I1. cbn [bind].
  destruct (isOverlap a b); cbn [negb]; [|reflexivity].
  destruct (reduceEvents a b) as [[u1 u2]| |]; cbn [bind]; try reflexivity.
  assert (R1 : slices.Replace (a :: b :: rest) 0 (0 + 1) u1
               = Returned (u1 ++ b :: rest)).
  { unfold slices.Replace. rewrite !len_cons.
    destruct (Z.leb_spec (0 + 1) (1 + (1 + len rest))); [reflexivity | lia]. }
  rewrite R1. reflexivity.
Qed.

(** The iteration at [i = 1], [j = 1]: the second event is compared
    with itself and the event after it, if any, is lost. *)
Lemma loopBody_self_pair (a b : Event) (rest : list Event) :
  loopBody (a :: b :: rest) 1 1 =
  match rest with
  | [] => Panicked SliceBoundsOutOfRange
  | _ :: rest' => Returned (Continue (a :: b :: rest') 0 1)
  end.
Proof.
  unfold loopBody. pose proof (len_nonneg rest) as L.
  rewrite !len_cons.
  destruct (Z.eqb_spec 1 (1 + (1 + len rest))); [lia|].
  cbv beta iota.
  destruct (Z.eqb_spec 1 (1 + (1 + len rest))); [lia|].
  rewrite andb_false_r.
  assert (I1 : index (a :: b :: rest) 1 = Returned b).
  { unfold index. rewrite !len_cons.
    destruct (Z.ltb_spec 1 (1 + (1 + len rest))); [reflexivity | lia]. }
  rewrite I1. cbn [bind]. rewrite isOverlap_refl. cbn [negb].
  assert (R : reduceEvents b b = Returned ([], [b])).
  { unfold reduceEvents. rewrite isOverlap_refl. cbn [negb].
    unfold time.Equal. rewrite !Z.eqb_refl. reflexivity. }
  rewrite R. cbn [bind].
  assert (R1 : slices.Replace (a :: b :: rest) 1 (1 + 1) [] = Returned (a :: rest)).
  { unfold slices.Replace. rewrite !len_cons.
    destruct (Z.leb_spec (1 + 1) (1 + (1 + len rest))); [reflexivity | lia]. }
  rewrite R1. cbn [bind]. change (1 + len (@nil Event)) with 1.
  unfold slices.Replace. rewrite len_cons.
  destruct rest as [|c rest'].
  - reflexivity.
  - pose proof (len_nonneg rest') as L'. rewrite len_cons.
    destruct (Z.leb_spec (1 + 1) (1 + (1 + len rest'))); [reflexivity | lia].
Qed.

(** X6: whenever [ReduceAllEvents] returns, its input had fewer than
    two events and the result is that input with a [nil] error; on two
    events or more it never returns, whatever the fuel. *)
Theorem ReduceAllEvents_needs_short_input (fuel : nat) (events : list Event)
    (res : list Event * option error) :
  ReduceAllEvents fuel events = Returned res ->
  len events < 2 /\ res = (events, None).
Proof.
  intros H. apply ReduceAllEvents_returns_iff. exists fuel. exact H.
Qed.

Lemma ReduceAllEvents_needs_short_input_witness :
  len [ev 0 1] < 2 /\ ([ev 0 1], @None error) = ([ev 0 1], None).
Proof.
  apply (ReduceAllEvents_needs_short_input 0 [ev 0 1]). reflexivity.
Defined.

(** X7: an input of exactly two events always makes [ReduceAllEvents]
    panic, whatever the events, within two rounds of its loop.  The
    panic is that of [reduceEvents], "missed something here", exactly
    when [reduceEvents] panics on the pair; on every other pair it is a
    slice bounds error, raised by the second [slices.Replace] or, for a
    pair that does not overlap, after the second event was compared
    with itself. *)
Theorem ReduceAllEvents_pair_panics (a b : Event) (fuel : nat) :
  (reduceEvents a b = Panicked MissedSomething /\
   ReduceAllEvents (S (S fuel)) [a; b] = Panicked MissedSomething) \/
  (reduceEvents a b <> Panicked MissedSomething /\
   ReduceAllEvents (S (S fuel)) [a; b] = Panicked SliceBoundsOutOfRange).
Proof.
  unfold ReduceAllEvents. change (len [a; b] <? 2) with false. cbv iota.
  cbn [reduceLoop]. rewrite loopBody_first_pair.
  destruct (isOverlap a b) eqn:O; cbn [negb].
  - destruct (reduceEvents a b) as [[u1 u2]|p|] eqn:R; cbn [bind].
    + right. split; [discriminate|].
      assert (B : slices.Replace (u1 ++ [b]) (1 + len u1) (1 + len u1 + 1) u2
                  = Panicked SliceBoundsOutOfRange).
      { unfold slices.Replace. rewrite len_app. change (len [b]) with 1.
        destruct (Z.leb_spec (1 + len u1 + 1) (len u1 + 1)); [lia|].
        rewrite andb_false_r. reflexivity. }
      rewrite B. reflexivity.
    + left. rewrite (reduceEvents_panic_kind _ _ _ R). split; reflexivity.
    + exfalso. exact (reduceEvents_never_out_of_fuel _ _ R).
  - right. split.
    + unfold reduceEvents. rewrite O. discriminate.
    + cbn [bind reduceLoop]. rewrite loopBody_self_pair. reflexivity.
Qed.

Lemma reduceLoop_disjoint_head (a b : Event) :
  isOverlap a b = false ->
  forall (rest : list Event) (fuel : nat),
    reduceLoop (2 * List.length rest + 2 + fuel) (a :: b :: rest) 0 1
    = Panicked SliceBoundsOutOfRange.
Proof.
  intros O. induction rest as [|c rest IH]; intros fuel.
  - cbn [List.length Nat.mul Nat.add reduceLoop].
    rewrite loopBody_first_pair, O. cbn [negb bind reduceLoop].
    rewrite loopBody_self_pair. reflexivity.
  - replace (2 * List.length (c :: rest) + 2 + fuel)%nat
      with (S (S (2 * List.length rest + 2 + fuel))) by (cbn [List.length]; lia).
    cbn [reduceLoop].
    rewrite loopBody_first_pair, O. cbn [negb bind].
    rewrite loopBody_self_pair. cbn [bind]. apply IH.
Qed.

(** X8: when the first two events of the input do not overlap,
    [ReduceAllEvents] panics with a slice bounds error, whatever events
    follow them: the scan compares the second event with itself and
    loses the event after it, round after round, until only the two are
    left.  Two rounds of fuel per later event and two more are enough to
    reach the panic. *)
Theorem ReduceAllEvents_disjoint_head_panics (a b : Event) (rest : list Event)
    (fuel : nat) :
  isOverlap a b = false ->
  ReduceAllEvents (2 * List.length rest + 2 + fuel) (a :: b :: rest)
  = Panicked SliceBoundsOutOfRange.
Proof.
  intros O. unfold ReduceAllEvents.
  pose proof (len_nonneg rest) as L. rewrite !len_cons.
  destruct (Z.ltb_spec (1 + (1 + len rest)) 2); [lia|].
  rewrite (reduceLoop_disjoint_head a b O). reflexivity.
Qed.

Lemma ReduceAllEvents_disjoint_head_panics_witness :
  ReduceAllEvents (2 * List.length [ev 4 5; ev 6 9] + 2 + 0)
    (ev 0 1 :: ev 2 3 :: [ev 4 5; ev 6 9])
  = Panicked SliceBoundsOutOfRange.
Proof.
  apply (ReduceAllEvents_disjoint_head_panics (ev 0 1) (ev 2 3) [ev 4 5; ev 6 9] 0).
  reflexivity.
Defined.

(** X9: when the second event is a zero-length marker at the start of
    the first, the first has positive length, and at least one more
    event follows, [ReduceAllEvents] never terminates: the pair is
    resolved into itself, the third event is overwritten with the
    marker, and the scan restarts on a list that no longer changes. *)
Theorem ReduceAllEvents_marker_diverges (a b c : Event) (rest : list Event)
    (fuel : nat) :
  Start b = Start a -> End b = Start a -> Start a < End a ->
  ReduceAllEvents fuel (a :: b :: c :: rest) = OutOfFuel.
Proof.
  intros Sb Eb Pa.
  assert (O : isOverlap a b = true) by (apply isOverlap_true_iff; unfold touching; lia).
  assert (R : reduceEvents a b = Returned ([a], [b])).
  { unfold reduceEvents. rewrite O. cbn [negb].
    unfold time.Equal, time.After, time.Before.
    destruct (Z.eqb_spec (Start a) (Start b)); [|lia].
    destruct (Z.eqb_spec (End a) (End b)); [lia|].
    destruct (Z.ltb_spec (End b) (End a)); [|lia].
    cbn [andb]. unfold withStart. rewrite Eb. destruct a; reflexivity. }
  assert (Step : forall x, loopBody (a :: b :: x :: rest) 0 1
                           = Returned (Continue (a :: b :: b :: rest) 0 1)).
  { intros x. rewrite loopBody_first_pair, O, R. cbn [negb bind app].
    change (1 + len [a]) with 2. unfold slices.Replace.
    pose proof (len_nonneg rest) as L. rewrite !len_cons.
    destruct (Z.leb_spec (2 + 1) (1 + (1 + (1 + len rest)))); [reflexivity | lia]. }
  assert (Loop : forall n, reduceLoop n (a :: b :: b :: rest) 0 1 = OutOfFuel).
  { induction n as [|n IH]; [reflexivity|].
    cbn [reduceLoop]. rewrite Step. cbn [bind]. exact IH. }
  unfold ReduceAllEvents. pose proof (len_nonneg rest) as L. rewrite !len_cons.
  destruct (Z.ltb_spec (1 + (1 + (1 + len rest))) 2); [lia|].
  destruct fuel as [|fuel]; [reflexivity|].
  cbn [reduceLoop]. rewrite Step. cbn [bind]. rewrite Loop. reflexivity.
Qed.

Lemma ReduceAllEvents_marker_diverges_witness :
  ReduceAllEvents 9 (ev 3 8 :: ev 3 3 :: ev 10 12 :: [ev 20 30]) = OutOfFuel.
Proof.
  apply (ReduceAllEvents_marker_diverges (ev 3 8) (ev 3 3) (ev 10 12) [ev 20 30] 9);
    cbn; lia.
Defined.

(** ** [Rule.Expand] with a positive [RepeatDuration] *)

Lemma neg_in_range (d : Z) : - 2 ^ 63 < d < 2 ^ 63 -> time.neg d = - d.
Proof.
  intros H. unfold time.neg, time.wrap64.
  rewrite Z.mod_small; lia.
Qed.

Section PositiveRepeat.

Variable r : Rule.
Hypothesis positive_repeat : 0 < RepeatDuration r.

Lemma expandForward_run (viewEnd : time.Time) (n : nat) :
  forall (s e : time.Time) (acc : list Event) (fuel : nat),
    (forall k, 0 <= k < Z.of_nat n -> s + k * (RepeatDuration r) < viewEnd) ->
    viewEnd <= s + Z.of_nat n * (RepeatDuration r) ->
    (n <= fuel)%nat ->
    expandForward fuel r viewEnd s e acc
    = Returned (acc ++ map (fun k => occurrence r (s + Z.of_nat k * (RepeatDuration r))
                                                  (e + (Z.of_nat k + 1) * (RepeatDuration r)))
                           (seq 0 n)).
Proof.
  induction n as [|n IH]; intros s e acc fuel Hlt Hge Hfuel.
  - assert (B : time.Before s viewEnd = false)
      by (unfold time.Before; apply Z.ltb_ge; lia).
    cbn [seq map]. rewrite app_nil_r.
    destruct fuel; cbn [expandForward]; rewrite B; reflexivity.
  - assert (B : time.Before s viewEnd = true).
    { unfold time.Before. apply Z.ltb_lt. specialize (Hlt 0). lia. }
    destruct fuel as [|fuel]; [lia|].
    cbn [expandForward]. rewrite B. unfold time.Add.
    rewrite IH; [| | lia | lia].
    + rewrite <- app_assoc. cbn [seq map app]. do 2 f_equal.
      f_equal; [unfold occurrence; f_equal; lia|].
      rewrite <- seq_shift, map_map. apply map_ext.
      intros k. unfold occurrence. f_equal; lia.
    + intros k Hk. specialize (Hlt (k + 1)). lia.
Qed.

Hypothesis repeat_in_range : RepeatDuration r < 2 ^ 63.

Lemma expandBackward_run (viewStart : time.Time) (n : nat) :
  forall (s e : time.Time) (acc : list Event) (fuel : nat),
    (forall k, 0 <= k < Z.of_nat n -> viewStart < s - k * (RepeatDuration r)) ->
    s - Z.of_nat n * (RepeatDuration r) <= viewStart ->
    (n <= fuel)%nat ->
    expandBackward fuel r viewStart s e acc
    = Returned (acc ++ map (fun k => occurrence r (s - Z.of_nat k * (RepeatDuration r))
                                                  (e - (Z.of_nat k + 1) * (RepeatDuration r)))
                           (seq 0 n)).
Proof.
  assert (N : time.neg (RepeatDuration r) = - (RepeatDuration r))
    by (apply neg_in_range; lia).
  induction n as [|n IH]; intros s e acc fuel Hlt Hge Hfuel.
  - assert (B : time.After s viewStart = false)
      by (unfold time.After; apply Z.ltb_ge; lia).
    cbn [seq map]. rewrite app_nil_r.
    destruct fuel; cbn [expandBackward]; rewrite B; reflexivity.
  - assert (B : time.After s viewStart = true).
    { unfold time.After. apply Z.ltb_lt. specialize (Hlt 0). lia. }
    destruct fuel as [|fuel]; [lia|].
    cbn [expandBackward]. rewrite B, N. unfold time.Add.
    rewrite IH; [| | lia | lia].
    + rewrite <- app_assoc. cbn [seq map app]. do 2 f_equal.
      f_equal; [unfold occurrence; f_equal; lia|].
      rewrite <- seq_shift, map_map. apply map_ext.
      intros k. unfold occurrence. f_equal; lia.
    + intros k Hk. specialize (Hlt (k + 1)). lia.
Qed.

Lemma backwardCount_nonneg (viewStart : time.Time) : 0 <= backwardCount r viewStart.
Proof.
  unfold backwardCount.
  destruct (Z.ltb_spec viewStart (Start (RuleEvent r))); [|lia].
  assert (0 <= (Start (RuleEvent r) - viewStart - 1) / (RepeatDuration r))
    by (apply Z.div_pos; lia).
  lia.
Qed.

Lemma forwardCount_nonneg (viewEnd : time.Time) : 0 <= forwardCount r viewEnd.
Proof.
  unfold forwardCount.
  destruct (Z.ltb_spec (Start (RuleEvent r)) viewEnd); [|lia].
  assert (0 <= (viewEnd - Start (RuleEvent r) - 1) / (RepeatDuration r))
    by (apply Z.div_pos; lia).
  lia.
Qed.

Lemma Expand_positive_repeat_run (viewStart viewEnd : time.Time) (fuel : nat) :
  Z.max (backwardCount r viewStart) (forwardCount r viewEnd) <= Z.of_nat fuel ->
  Expand fuel r viewStart viewEnd
  = Returned (backwardOccurrences r viewStart ++ forwardOccurrences r viewEnd).
Proof.
  intros Hfuel.
  pose proof (backwardCount_nonneg viewStart) as Hb.
  pose proof (forwardCount_nonneg viewEnd) as Hf.
  unfold Expand.
  rewrite (expandBackward_run viewStart (Z.to_nat (backwardCount r viewStart))).
  - cbn [bind app].
    rewrite (expandForward_run viewEnd (Z.to_nat (forwardCount r viewEnd))).
    + unfold backwardOccurrences, forwardOccurrences, upto.
      rewrite !map_map. reflexivity.
    + rewrite Z2Nat.id by exact Hf. unfold forwardCount.
      destruct (Z.ltb_spec (Start (RuleEvent r)) viewEnd); [|lia].
      intros k Hk.
      pose proof (Z.mul_div_le (viewEnd - Start (RuleEvent r) - 1) (RepeatDuration r) positive_repeat).
      nia.
    + rewrite Z2Nat.id by exact Hf. unfold forwardCount.
      destruct (Z.ltb_spec (Start (RuleEvent r)) viewEnd); [|lia].
      pose proof (Z.mul_succ_div_gt (viewEnd - Start (RuleEvent r) - 1) (RepeatDuration r) positive_repeat).
      lia.
    + lia.
  - rewrite Z2Nat.id by exact Hb. unfold backwardCount.
    destruct (Z.ltb_spec viewStart (Start (RuleEvent r))); [|lia].
    intros k Hk.
    pose proof (Z.mul_div_le (Start (RuleEvent r) - viewStart - 1) (RepeatDuration r) positive_repeat).
    nia.
  - rewrite Z2Nat.id by exact Hb. unfold backwardCount.
    destruct (Z.ltb_spec viewStart (Start (RuleEvent r))); [|lia].
    pose proof (Z.mul_succ_div_gt (Start (RuleEvent r) - viewStart - 1) (RepeatDuration r) positive_repeat).
    lia.
  - lia.
Qed.

End PositiveRepeat.

(** ** [Rule.Expand] over Go's [Time.Add] *)

(** Go's [Time.Add] is exact addition whenever the sum is an instant
    that Go can hold. *)
Lemma AddSaturating_exact (t : time.Time) (d : time.Duration) :
  representable (t + d) -> AddSaturating t d = time.Add t d.
Proof.
  unfold representable, AddSaturating, internalSec, internalNsec, internalTime,
    addSec, time.wrap64, unixToInternal, time.Add, time.Second.
  intros R.
  pose proof (Z.quot_rem' d 1000000000) as Q.
  assert (Rb : -1000000000 < Z.rem d 1000000000 < 1000000000).
  { pose proof (Z.rem_bound_abs d 1000000000 ltac:(lia)). lia. }
  set (dq := Z.quot d 1000000000) in *. set (dr := Z.rem d 1000000000) in *.
  clearbody dq dr.
  pose proof (Z.div_mod t 1000000000 ltac:(lia)) as T.
  pose proof (Z.mod_pos_bound t 1000000000 ltac:(lia)) as Tb.
  set (q := t / 1000000000) in *. set (m := t mod 1000000000) in *.
  clearbody q m.
  assert (E : forall ds ns,
     0 <= ns < 1000000000 -> t + d = 1000000000 * (q + ds) + ns ->
     (if Bool.eqb (q + 62135596800
                   <? ((q + 62135596800 + ds + 2 ^ 63) mod 2 ^ 64 - 2 ^ 63))
                  (0 <? ds)
      then (q + 62135596800 + ds + 2 ^ 63) mod 2 ^ 64 - 2 ^ 63
      else if 0 <? ds then 2 ^ 63 - 1 else - (2 ^ 63 - 1))
     = q + 62135596800 + ds).
  { intros ds ns Hns Heq.
    assert ((t + d) / 1000000000 = q + ds).
    { symmetry. apply (Z.div_unique (t + d) 1000000000 (q + ds) ns); lia. }
    rewrite Z.mod_small by lia.
    replace (q + 62135596800 + ds + 2 ^ 63 - 2 ^ 63)
      with (q + 62135596800 + ds) by lia.
    destruct (Z.ltb_spec (q + 62135596800) (q + 62135596800 + ds));
      destruct (Z.ltb_spec 0 ds); cbn; lia. }
  destruct (Z.leb_spec 1000000000 (m + dr)).
  - rewrite (E (dq + 1) (m + dr - 1000000000)) by lia. lia.
  - destruct (Z.ltb_spec (m + dr) 0).
    + rewrite (E (dq - 1) (m + dr + 1000000000)) by lia. lia.
    + rewrite (E dq (m + dr)) by lia. lia.
Qed.

(** At the end of the range it is not: one nanosecond added to the
    last instant of the last second gives an earlier instant. *)
Example AddSaturating_saturates :
  representable (internalTime (2 ^ 63 - 1) 999999999) /\
  AddSaturating (internalTime (2 ^ 63 - 1) 999999999) 1
  = internalTime (2 ^ 63 - 1) 0.
Proof. split; [unfold representable; vm_compute; split; discriminate | reflexivity]. Qed.

Lemma representable_between (t : time.Time) :
  - 2 ^ 63 * time.Second <= t <= (2 ^ 63 - 1 - unixToInternal) * time.Second ->
  representable t.
Proof.
  unfold representable, internalSec, unixToInternal, time.Second. intros [L U].
  assert (- 2 ^ 63 <= t / 1000000000)
    by (apply Z.div_le_lower_bound; lia).
  assert (t / 1000000000 <= 2 ^ 63 - 1 - 62135596800)
    by (apply Z.div_le_upper_bound; lia).
  lia.
Qed.

Section PositiveRepeatGo.

Variable r : Rule.
Hypothesis positive_repeat : 0 < RepeatDuration r.
Hypothesis repeat_in_range : RepeatDuration r < 2 ^ 63.

Lemma expandForwardGo_run (viewEnd : time.Time) (n : nat) :
  forall (s e : time.Time) (acc : list Event) (fuel : nat),
    (forall k, 0 <= k < Z.of_nat n -> s + k * (RepeatDuration r) < viewEnd) ->
    viewEnd <= s + Z.of_nat n * (RepeatDuration r) ->
    (forall k, 1 <= k <= Z.of_nat n ->
               representable (s + k * (RepeatDuration r)) /\
               representable (e + k * (RepeatDuration r))) ->
    (n <= fuel)%nat ->
    expandForwardGo fuel r viewEnd s e acc
    = Returned (acc ++ map (fun k => occurrence r (s + Z.of_nat k * (RepeatDuration r))
                                                  (e + (Z.of_nat k + 1) * (RepeatDuration r)))
                           (seq 0 n)).
Proof.
  induction n as [|n IH]; intros s e acc fuel Hlt Hge Hrep Hfuel.
  - assert (B : time.Before s viewEnd = false)
      by (unfold time.Before; apply Z.ltb_ge; lia).
    cbn [seq map]. rewrite app_nil_r.
    destruct fuel; cbn [expandForwardGo]; rewrite B; reflexivity.
  - assert (B : time.Before s viewEnd = true).
    { unfold time.Before. apply Z.ltb_lt. specialize (Hlt 0). lia. }
    destruct fuel as [|fuel]; [lia|].
    cbn [expandForwardGo]. rewrite B.
    destruct (Hrep 1 ltac:(lia)) as [Rs Re]. rewrite Z.mul_1_l in Rs, Re.
    rewrite (AddSaturating_exact s _ Rs), (AddSaturating_exact e _ Re).
    unfold time.Add.
    rewrite IH; [| | lia | | lia].
    + rewrite <- app_assoc. cbn [seq map app]. do 2 f_equal.
      f_equal; [unfold occurrence; f_equal; lia|].
      rewrite <- seq_shift, map_map. apply map_ext.
      intros k. unfold occurrence. f_equal; lia.
    + intros k Hk. specialize (Hlt (k + 1)). lia.
    + intros k Hk. destruct (Hrep (k + 1) ltac:(lia)) as [Rs' Re'].
      replace (s + RepeatDuration r + k * RepeatDuration r)
        with (s + (k + 1) * RepeatDuration r) by lia.
      replace (e + RepeatDuration r + k * RepeatDuration r)
        with (e + (k + 1) * RepeatDuration r) by lia.
      split; assumption.
Qed.

Lemma expandBackwardGo_run (viewStart : time.Time) (n : nat) :
  forall (s e : time.Time) (acc : list Event) (fuel : nat),
    (forall k, 0 <= k < Z.of_nat n -> viewStart < s - k * (RepeatDuration r)) ->
    s - Z.of_nat n * (RepeatDuration r) <= viewStart ->
    (forall k, 1 <= k <= Z.of_nat n ->
               representable (s - k * (RepeatDuration r)) /\
               representable (e - k * (RepeatDuration r))) ->
    (n <= fuel)%nat ->
    expandBackwardGo fuel r viewStart s e acc
    = Returned (acc ++ map (fun k => occurrence r (s - Z.of_nat k * (RepeatDuration r))
                                                  (e - (Z.of_nat k + 1) * (RepeatDuration r)))
                           (seq 0 n)).
Proof.
  assert (N : time.neg (RepeatDuration r) = - (RepeatDuration r))
    by (apply neg_in_range; lia).
  induction n as [|n IH]; intros s e acc fuel Hlt Hge Hrep Hfuel.
  - assert (B : time.After s viewStart = false)
      by (unfold time.After; apply Z.ltb_ge; lia).
    cbn [seq map]. rewrite app_nil_r.
    destruct fuel; cbn [expandBackwardGo]; rewrite B; reflexivity.
  - assert (B : time.After s viewStart = true).
    { unfold time.After. apply Z.ltb_lt. specialize (Hlt 0). lia. }
    destruct fuel as [|fuel]; [lia|].
    cbn [expandBackwardGo]. rewrite B, N.
    destruct (Hrep 1 ltac:(lia)) as [Rs Re]. rewrite Z.mul_1_l in Rs, Re.
    rewrite (AddSaturating_exact s (- RepeatDuration r)) by exact Rs.
    rewrite (AddSaturating_exact e (- RepeatDuration r)) by exact Re.
    unfold time.Add.
    rewrite IH; [| | lia | | lia].
    + rewrite <- app_assoc. cbn [seq map app]. do 2 f_equal.
      f_equal; [unfold occurrence; f_equal; lia|].
      rewrite <- seq_shift, map_map. apply map_ext.
      intros k. unfold occurrence. f_equal; lia.
    + intros k Hk. specialize (Hlt (k + 1)). lia.
    + intros k Hk. destruct (Hrep (k + 1) ltac:(lia)) as [Rs' Re'].
      replace (s + - RepeatDuration r - k * RepeatDuration r)
        with (s - (k + 1) * RepeatDuration r) by lia.
      replace (e + - RepeatDuration r - k * RepeatDuration r)
        with (e - (k + 1) * RepeatDuration r) by lia.
      split; assumption.
Qed.

Hypothesis safe_start : safeInstant (Start (RuleEvent r)).
Hypothesis safe_end : safeInstant (End (RuleEvent r)).

Lemma ExpandGo_positive_repeat_run (viewStart viewEnd : time.Time) (fuel : nat) :
  safeInstant viewStart -> safeInstant viewEnd ->
  Z.max (backwardCount r viewStart) (forwardCount r viewEnd) <= Z.of_nat fuel ->
  ExpandGo fuel r viewStart viewEnd
  = Returned (backwardOccurrences r viewStart ++ forwardOccurrences r viewEnd).
Proof.
  intros Svs Sve Hfuel.
  pose proof (backwardCount_nonneg r positive_repeat viewStart) as Hb.
  pose proof (forwardCount_nonneg r positive_repeat viewEnd) as Hf.
  unfold safeInstant, time.Second in *.
  unfold ExpandGo.
  rewrite (expandBackwardGo_run viewStart (Z.to_nat (backwardCount r viewStart))).
  - cbn [bind app].
    rewrite (expandForwardGo_run viewEnd (Z.to_nat (forwardCount r viewEnd))).
    + unfold backwardOccurrences, forwardOccurrences, upto.
      rewrite !map_map. reflexivity.
    + rewrite Z2Nat.id by exact Hf. unfold forwardCount.
      destruct (Z.ltb_spec (Start (RuleEvent r)) viewEnd); [|lia].
      intros k Hk.
      pose proof (Z.mul_div_le (viewEnd - Start (RuleEvent r) - 1)
                    (RepeatDuration r) positive_repeat).
      nia.
    + rewrite Z2Nat.id by exact Hf. unfold forwardCount.
      destruct (Z.ltb_spec (Start (RuleEvent r)) viewEnd); [|lia].
      pose proof (Z.mul_succ_div_gt (viewEnd - Start (RuleEvent r) - 1)
                    (RepeatDuration r) positive_repeat).
      lia.
    + rewrite Z2Nat.id by exact Hf. unfold forwardCount.
      destruct (Z.ltb_spec (Start (RuleEvent r)) viewEnd); [|lia].
      intros k Hk.
      pose proof (Z.mul_div_le (viewEnd - Start (RuleEvent r) - 1)
                    (RepeatDuration r) positive_repeat).
      assert (0 < k * RepeatDuration r
              <= viewEnd - Start (RuleEvent r) - 1 + RepeatDuration r) by nia.
      split; apply representable_between;
        unfold unixToInternal, time.Second; lia.
    + lia.
  - rewrite Z2Nat.id by exact Hb. unfold backwardCount.
    destruct (Z.ltb_spec viewStart (Start (RuleEvent r))); [|lia].
    intros k Hk.
    pose proof (Z.mul_div_le (Start (RuleEvent r) - viewStart - 1)
                  (RepeatDuration r) positive_repeat).
    nia.
  - rewrite Z2Nat.id by exact Hb. unfold backwardCount.
    destruct (Z.ltb_spec viewStart (Start (RuleEvent r))); [|lia].
    pose proof (Z.mul_succ_div_gt (Start (RuleEvent r) - viewStart - 1)
                  (RepeatDuration r) positive_repeat).
    lia.
  - rewrite Z2Nat.id by exact Hb. unfold backwardCount.
    destruct (Z.ltb_spec viewStart (Start (RuleEvent r))); [|lia].
    intros k Hk.
    pose proof (Z.mul_div_le (Start (RuleEvent r) - viewStart - 1)
                  (RepeatDuration r) positive_repeat).
    assert (0 < k * RepeatDuration r
            <= Start (RuleEvent r) - viewStart - 1 + RepeatDuration r) by nia.
    split; apply representable_between;
      unfold unixToInternal, time.Second; lia.
  - lia.
Qed.

End PositiveRepeatGo.

Lemma expandBackwardGo_more_fuel (r : Rule) (viewStart : time.Time) (fuel : nat) :
  forall (s e : time.Time) (acc res : list Event),
    expandBackwardGo fuel r viewStart s e acc = Returned res ->
    forall k : nat, expandBackwardGo (fuel + k) r viewStart s e acc = Returned res.
Proof.
  induction fuel as [|fuel IH]; intros s e acc res H k; cbn [expandBackwardGo] in H.
  - destruct (time.After s viewStart) eqn:E; [discriminate|].
    destruct k; cbn [Nat.add expandBackwardGo]; rewrite E; exact H.
  - cbn [Nat.add expandBackwardGo].
    destruct (time.After s viewStart); [apply IH; exact H | exact H].
Qed.

Lemma expandForwardGo_more_fuel (r : Rule) (viewEnd : time.Time) (fuel : nat) :
  forall (s e : time.Time) (acc res : list Event),
    expandForwardGo fuel r viewEnd s e acc = Returned res ->
    forall k : nat, expandForwardGo (fuel + k) r viewEnd s e acc = Returned res.
Proof.
  induction fuel as [|fuel IH]; intros s e acc res H k; cbn [expandForwardGo] in H.
  - destruct (time.Before s viewEnd) eqn:E; [discriminate|].
    destruct k; cbn [Nat.add expandForwardGo]; rewrite E; exact H.
  - cbn [Nat.add expandForwardGo].
    destruct (time.Before s viewEnd); [apply IH; exact H | exact H].
Qed.

Lemma ExpandGo_more_fuel (r : Rule) (viewStart viewEnd : time.Time) (fuel k : nat)
    (res : list Event) :
  ExpandGo fuel r viewStart viewEnd = Returned res ->
  ExpandGo (fuel + k) r viewStart viewEnd = Returned res.
Proof.
  unfold ExpandGo. intros H.
  destruct (expandBackwardGo fuel r viewStart _ _ []) as [back| |] eqn:B;
    cbn [bind] in H; try discriminate.
  rewrite (expandBackwardGo_more_fuel _ _ _ _ _ _ _ B). cbn [bind].
  apply expandForwardGo_more_fuel. exact H.
Qed.

(** On the rule and window of [TestExpandEvents] the two agree: the six
    occurrences are those Go's [Time.Add] gives. *)
Example ExpandGo_birthday :
  ExpandGo 6 birthdayRule birthdayViewStart birthdayViewEnd
  = Returned birthdayExpansion.
Proof. vm_compute. reflexivity. Qed.

(** For a positive duration and instants in the safe range [Expand]
    over exact addition and [ExpandGo] return the same events. *)
Lemma ExpandGo_agrees_with_Expand (r : Rule) (viewStart viewEnd : time.Time)
    (fuel : nat) :
  0 < RepeatDuration r < 2 ^ 63 ->
  safeInstant (Start (RuleEvent r)) -> safeInstant (End (RuleEvent r)) ->
  safeInstant viewStart -> safeInstant viewEnd ->
  Z.max (backwardCount r viewStart) (forwardCount r viewEnd) <= Z.of_nat fuel ->
  ExpandGo fuel r viewStart viewEnd = Expand fuel r viewStart viewEnd.
Proof.
  intros [P B] S1 S2 S3 S4 F.
  rewrite ExpandGo_positive_repeat_run, Expand_positive_repeat_run by assumption.
  reflexivity.
Qed.

(** X10: for a [RepeatDuration] that is positive and a rule and window
    whose instants lie within 2^61 seconds of the Unix epoch, so that
    no [Time.Add] of Go saturates, [Expand] terminates and returns the
    occurrences of its backward loop followed by those of its forward
    loop.  The k-th backward occurrence starts k durations before the
    rule's start, as long as that is after [viewStart]; the k-th
    forward occurrence starts k durations after it, as long as that is
    before [viewEnd]; each ends where the rule's end lies after k+1
    steps in the same direction.  As many rounds of fuel as the longer
    loop has iterations suffice. *)
Theorem Expand_positive_repeat (r : Rule) (viewStart viewEnd : time.Time)
    (fuel : nat) :
  0 < RepeatDuration r < 2 ^ 63 ->
  safeInstant (Start (RuleEvent r)) -> safeInstant (End (RuleEvent r)) ->
  safeInstant viewStart -> safeInstant viewEnd ->
  Z.max (backwardCount r viewStart) (forwardCount r viewEnd) <= Z.of_nat fuel ->
  ExpandGo fuel r viewStart viewEnd
  = Returned (backwardOccurrences r viewStart ++ forwardOccurrences r viewEnd).
Proof.
  intros [P B] S1 S2 S3 S4 F. apply ExpandGo_positive_repeat_run; assumption.
Qed.

Lemma Expand_positive_repeat_witness :
  ExpandGo 6 birthdayRule birthdayViewStart birthdayViewEnd
  = Returned (backwardOccurrences birthdayRule birthdayViewStart
              ++ forwardOccurrences birthdayRule birthdayViewEnd).
Proof.
  apply (Expand_positive_repeat birthdayRule birthdayViewStart birthdayViewEnd 6).
  - vm_compute. split; reflexivity.
  - unfold safeInstant. vm_compute. split; discriminate.
  - unfold safeInstant. vm_compute. split; discriminate.
  - unfold safeInstant. vm_compute. split; discriminate.
  - unfold safeInstant. vm_compute. split; discriminate.
  - vm_compute. discriminate.
Defined.

Lemma ExpandGo_positive_repeat_returned (r : Rule) (viewStart viewEnd : time.Time)
    (fuel : nat) (res : list Event) :
  0 < RepeatDuration r < 2 ^ 63 ->
  safeInstant (Start (RuleEvent r)) -> safeInstant (End (RuleEvent r)) ->
  safeInstant viewStart -> safeInstant viewEnd ->
  ExpandGo fuel r viewStart viewEnd = Returned res ->
  res = backwardOccurrences r viewStart ++ forwardOccurrences r viewEnd.
Proof.
  intros [P B] S1 S2 S3 S4 H.
  set (n := Z.to_nat (Z.max (backwardCount r viewStart) (forwardCount r viewEnd))).
  apply (ExpandGo_more_fuel r viewStart viewEnd fuel n) in H.
  rewrite ExpandGo_positive_repeat_run in H; try assumption; [congruence | lia].
Qed.

Lemma upto_zero (n : Z) : 0 < n -> In 0 (upto n).
Proof.
  intros H. unfold upto. apply in_map_iff. exists 0%nat. split; [reflexivity|].
  apply in_seq. lia.
Qed.

(** X11: for a positive [RepeatDuration] and a rule and window whose
    instants lie within 2^61 seconds of the Unix epoch, so that no
    [Time.Add] of Go saturates, no event that [Expand] returns is as
    long as the rule's event: each carries the rule's name and is
    longer or shorter than the rule's event by exactly the duration, so
    the rule's own event is never among them.  When the rule starts
    strictly inside the window, two returned events start at the rule's
    start, one ending a duration before the rule's end and one a
    duration after it. *)
Theorem Expand_occurrence_lengths (r : Rule) (viewStart viewEnd : time.Time)
    (fuel : nat) (res : list Event) :
  0 < RepeatDuration r < 2 ^ 63 ->
  safeInstant (Start (RuleEvent r)) -> safeInstant (End (RuleEvent r)) ->
  safeInstant viewStart -> safeInstant viewEnd ->
  ExpandGo fuel r viewStart viewEnd = Returned res ->
  Forall (fun e =>
            Name e = Name (RuleEvent r) /\
            (End e - Start e
               = End (RuleEvent r) - Start (RuleEvent r) + RepeatDuration r \/
             End e - Start e
               = End (RuleEvent r) - Start (RuleEvent r) - RepeatDuration r)) res /\
  ~ In (RuleEvent r) res /\
  (viewStart < Start (RuleEvent r) < viewEnd ->
   In (occurrence r (Start (RuleEvent r)) (End (RuleEvent r) - RepeatDuration r)) res /\
   In (occurrence r (Start (RuleEvent r)) (End (RuleEvent r) + RepeatDuration r)) res).
Proof.
  intros D S1 S2 S3 S4 H.
  pose proof (ExpandGo_positive_repeat_returned _ _ _ _ _ D S1 S2 S3 S4 H) as E.
  assert (F : Forall (fun e =>
            Name e = Name (RuleEvent r) /\
            (End e - Start e
               = End (RuleEvent r) - Start (RuleEvent r) + RepeatDuration r \/
             End e - Start e
               = End (RuleEvent r) - Start (RuleEvent r) - RepeatDuration r)) res).
  { subst res. apply Forall_app. unfold backwardOccurrences, forwardOccurrences.
    split; apply Forall_forall; intros e He; apply in_map_iff in He;
      destruct He as (k & <- & _); cbn [occurrence Name Start End];
      (split; [reflexivity | lia]). }
  split; [exact F|]. split.
  - intros I. rewrite Forall_forall in F. apply F in I. lia.
  - intros W. subst res.
    pose proof (backwardCount_nonneg r (proj1 D) viewStart) as Hb.
    pose proof (forwardCount_nonneg r (proj1 D) viewEnd) as Hf.
    split; apply in_or_app; [left | right];
      unfold backwardOccurrences, forwardOccurrences; apply in_map_iff;
      exists 0; (split; [unfold occurrence; f_equal; lia|]); apply upto_zero.
    + unfold backwardCount in *.
      destruct (Z.ltb_spec viewStart (Start (RuleEvent r))); [|lia].
      assert (0 <= (Start (RuleEvent r) - viewStart - 1) / RepeatDuration r)
        by (apply Z.div_pos; lia).
      lia.
    + unfold forwardCount in *.
      destruct (Z.ltb_spec (Start (RuleEvent r)) viewEnd); [|lia].
      assert (0 <= (viewEnd - Start (RuleEvent r) - 1) / RepeatDuration r)
        by (apply Z.div_pos; lia).
      lia.
Qed.

Lemma Expand_occurrence_lengths_witness :
  Forall (fun e =>
            Name e = Name (RuleEvent birthdayRule) /\
            (End e - Start e
               = End (RuleEvent birthdayRule) - Start (RuleEvent birthdayRule)
                 + RepeatDuration birthdayRule \/
             End e - Start e
               = End (RuleEvent birthdayRule) - Start (RuleEvent birthdayRule)
                 - RepeatDuration birthdayRule)) birthdayExpansion /\
  ~ In (RuleEvent birthdayRule) birthdayExpansion /\
  (birthdayViewStart < Start (RuleEvent birthdayRule) < birthdayViewEnd ->
   In (occurrence birthdayRule (Start (RuleEvent birthdayRule))
         (End (RuleEvent birthdayRule) - RepeatDuration birthdayRule))
      birthdayExpansion /\
   In (occurrence birthdayRule (Start (RuleEvent birthdayRule))
         (End (RuleEvent birthdayRule) + RepeatDuration birthdayRule))
      birthdayExpansion).
Proof.
  apply (Expand_occurrence_lengths birthdayRule birthdayViewStart birthdayViewEnd 6).
  - vm_compute. split; reflexivity.
  - unfold safeInstant. vm_compute. split; discriminate.
  - unfold safeInstant. vm_compute. split; discriminate.
  - unfold safeInstant. vm_compute. split; discriminate.
  - unfold safeInstant. vm_compute. split; discriminate.
  - vm_compute. reflexivity.
Defined.

(** ** The fields of a rule that [Expand] reads *)

Section SameRepeat.

Variables r r' : Rule.
Hypothesis same_event : RuleEvent r = RuleEvent r'.
Hypothesis same_repeat : RepeatDuration r = RepeatDuration r'.

Lemma expandBackward_same (viewStart : time.Time) (fuel : nat) :
  forall (s e : time.Time) (acc : list Event),
    expandBackward fuel r viewStart s e acc
    = expandBackward fuel r' viewStart s e acc.
Proof.
  induction fuel as [|fuel IH]; intros s e acc; cbn [expandBackward].
  - reflexivity.
  - unfold occurrence. rewrite same_event, same_repeat, IH. reflexivity.
Qed.

Lemma expandForward_same (viewEnd : time.Time) (fuel : nat) :
  forall (s e : time.Time) (acc : list Event),
    expandForward fuel r viewEnd s e acc
    = expandForward fuel r' viewEnd s e acc.
Proof.
  induction fuel as [|fuel IH]; intros s e acc; cbn [expandForward].
  - reflexivity.
  - unfold occurrence. rewrite same_event, same_repeat, IH. reflexivity.
Qed.

End SameRepeat.

(** X12: [Expand] reads nothing of a rule but its event and its
    [RepeatDuration]: two rules that agree on these expand alike, in
    fuel, result and failure, whatever their [RepeatForwardUntil],
    [RepeatBackwardUntil], [Skip], [Canceled] and other repeat fields
    say.  No limit is applied and no occurrence is skipped. *)
Theorem Expand_reads_event_and_duration (r r' : Rule)
    (viewStart viewEnd : time.Time) (fuel : nat) :
  RuleEvent r = RuleEvent r' ->
  RepeatDuration r = RepeatDuration r' ->
  Expand fuel r viewStart viewEnd = Expand fuel r' viewStart viewEnd.
Proof.
  intros E D. unfold Expand.
  rewrite (expandBackward_same r r' E D), <- E.
  destruct (expandBackward fuel r' viewStart _ _ []); cbn [bind]; try reflexivity.
  apply (expandForward_same r r' E D).
Qed.

Lemma Expand_reads_event_and_duration_witness :
  Expand 6 birthdayRule birthdayViewStart birthdayViewEnd
  = Expand 6 birthdayRuleVariant birthdayViewStart birthdayViewEnd.
Proof.
  apply (Expand_reads_event_and_duration birthdayRule birthdayRuleVariant);
    reflexivity.
Defined.

(** ** [Rule.Expand] with a [RepeatDuration] that is not positive *)

Section NonPositiveRepeat.

Variable r : Rule.
Hypothesis nonpositive_repeat : - 2 ^ 63 < RepeatDuration r <= 0.



End NonPositiveRepeat.



(** ** [Calendar.View], continued *)

Lemma viewEntries_returned_iff (fuel : nat) (viewStart viewEnd : time.Time)
    (entries : list Rule) :
  forall (acc res : list Event),
    viewEntries fuel entries viewStart viewEnd acc = Returned res <->
    exists expansions : list (list Event),
      Forall2 (fun rule l => Expand fuel rule viewStart viewEnd = Returned l)
              entries expansions /\
      res = acc ++ List.concat expansions.
Proof.
  induction entries as [|rule entries IH]; intros acc res; cbn [viewEntries].
  - split.
    + intros H. exists []. split; [constructor|].
      cbn [List.concat]. rewrite app_nil_r. congruence.
    + intros (ls & F & ->). inversion F; subst. cbn [List.concat].
      rewrite app_nil_r. reflexivity.
  - split.
    + intros H.
      destruct (Expand fuel rule viewStart viewEnd) as [l| |] eqn:E;
        cbn [bind] in H; try discriminate.
      apply IH in H. destruct H as (ls & F & ->).
      exists (l :: ls). split; [constructor; assumption|].
      cbn [List.concat]. rewrite app_assoc. reflexivity.
    + intros (ls & F & ->). inversion F as [|? l ? ls' E F']; subst.
      rewrite E. cbn [bind]. apply IH. exists ls'. split; [exact F'|].
      cbn [List.concat]. rewrite app_assoc. reflexivity.
Qed.

(** X14: [View] returns exactly when [Expand] returns for every rule of
    the calendar and the expansions, concatenated in the order of the
    entries, amount to fewer than two events; it then returns that
    concatenation and a [nil] error.  As soon as the rules expand to two
    events or more, [View] does not return. *)
Theorem View_returns_iff (fuel : nat) (c : Calendar) (viewStart viewEnd : time.Time)
    (res : list Event) (err : option error) :
  View fuel c viewStart viewEnd = Returned (res, err) <->
  (exists expansions : list (list Event),
     Forall2 (fun rule l => Expand fuel rule viewStart viewEnd = Returned l)
             (Entries c) expansions /\
     res = List.concat expansions) /\
  len res < 2 /\ err = None.
Proof.
  unfold View. split.
  - intros H.
    destruct (viewEntries fuel (Entries c) viewStart viewEnd []) as [evs| |] eqn:V;
      cbn [bind] in H; try discriminate.
    destruct (ReduceAllEvents fuel evs) as [[r e]| |] eqn:R;
      cbn [bind] in H; try discriminate.
    assert (X : exists fuel, ReduceAllEvents fuel evs = Returned (r, e)) by eauto.
    apply ReduceAllEvents_returns_iff in X. destruct X as [L X].
    inversion X; subst. inversion H; subst.
    apply viewEntries_returned_iff in V. cbn [app] in V. auto.
  - intros (V & L & ->).
    apply (viewEntries_returned_iff fuel viewStart viewEnd (Entries c) [] res) in V.
    rewrite V. cbn [bind]. unfold ReduceAllEvents.
    destruct (Z.ltb_spec (len res) 2); [reflexivity | lia].
Qed.

(** ** [RepeatEventAnnually] *)

Section RepeatAnnually.

Variable AddDate : time.Time -> Z -> time.Time.

Lemma repeatForward_not_entered (e : Event) (numberOfYears : Z)
    (start forwardDirection : time.Time) (acc : list Event) (fuel : nat) :
  End e < forwardDirection \/ forwardDirection < start ->
  repeatForward AddDate fuel e numberOfYears start forwardDirection acc
  = Returned acc.
Proof.
  intros H.
  assert (C : negb (time.After forwardDirection (End e))
              && negb (time.Before forwardDirection start) = false).
  { unfold time.After, time.Before.
    destruct (Z.ltb_spec (End e) forwardDirection);
      destruct (Z.ltb_spec forwardDirection start); cbn; try reflexivity; lia. }
  destruct fuel; cbn [repeatForward]; rewrite C; reflexivity.
Qed.

Lemma repeatBackward_not_entered (e : Event) (numberOfYears : Z)
    (backwardDirection : time.Time) (acc : list Event) (fuel : nat) :
  backwardDirection < Start e \/ End e < backwardDirection ->
  repeatBackward AddDate fuel e numberOfYears backwardDirection acc
  = Returned acc.
Proof.
  intros H.
  assert (C : negb (time.Before backwardDirection (Start e))
              && negb (time.After backwardDirection (End e)) = false).
  { unfold time.After, time.Before.
    destruct (Z.ltb_spec backwardDirection (Start e));
      destruct (Z.ltb_spec (End e) backwardDirection); cbn; try reflexivity; lia. }
  destruct fuel; cbn [repeatBackward]; rewrite C; reflexivity.
Qed.

Lemma repeatBackward_zero_runs_on (e : Event) (fuel : nat) :
  valid e -> AddDate (Start e) 0 = Start e ->
  forall acc : list Event,
    repeatBackward AddDate fuel e 0 (Start e) acc = OutOfFuel.
Proof.
  unfold valid. intros V Z0.
  assert (C : negb (time.Before (Start e) (Start e))
              && negb (time.After (Start e) (End e)) = true).
  { unfold time.After, time.Before.
    destruct (Z.ltb_spec (Start e) (Start e));
      destruct (Z.ltb_spec (End e) (Start e)); cbn; try reflexivity; lia. }
  induction fuel as [|fuel IH]; intros acc; cbn [repeatBackward]; rewrite C.
  - reflexivity.
  - change (time.wrap64 (- 0)) with 0. rewrite Z0. apply IH.
Qed.

Lemma repeatForward_zero_runs_on (e : Event) (start : time.Time) (fuel : nat) :
  valid e -> AddDate (Start e) 0 = Start e -> start <= Start e ->
  forall acc : list Event,
    repeatForward AddDate fuel e 0 start (Start e) acc = OutOfFuel.
Proof.
  unfold valid. intros V Z0 S.
  assert (C : negb (time.After (Start e) (End e))
              && negb (time.Before (Start e) start) = true).
  { unfold time.After, time.Before.
    destruct (Z.ltb_spec (End e) (Start e));
      destruct (Z.ltb_spec (Start e) start); cbn; try reflexivity; lia. }
  induction fuel as [|fuel IH]; intros acc; cbn [repeatForward]; rewrite C.
  - reflexivity.
  - rewrite Z0. apply IH.
Qed.

Lemma repeatForward_run (e : Event) (numberOfYears : Z) (start : time.Time)
    (m : nat) :
  0 < numberOfYears ->
  (forall t, Start e <= t <= End e ->
             AddDate t numberOfYears = AddDateDays t numberOfYears) ->
  forall (fd : time.Time) (acc : list Event) (fuel : nat),
    start <= fd -> Start e <= fd ->
    (forall k, 0 <= k < Z.of_nat m ->
               fd + k * (numberOfYears * time.nsPerDay) <= End e) ->
    End e < fd + Z.of_nat m * (numberOfYears * time.nsPerDay) ->
    (m <= fuel)%nat ->
    repeatForward AddDate fuel e numberOfYears start fd acc
    = Returned
        (acc ++ map (fun k =>
                       {| Start := fd + Z.of_nat k * (numberOfYears * time.nsPerDay);
                          End := fd + (Z.of_nat k + 1) * (numberOfYears * time.nsPerDay);
                          Name := Name e ++ " (forward)" |})
                    (seq 0 m)).
Proof.
  intros N Days.
  assert (D : 0 < numberOfYears * time.nsPerDay)
    by (unfold time.nsPerDay, time.Second; lia).
  induction m as [|m IH]; intros fd acc fuel S Sd Hle Hgt Hfuel.
  - cbn [seq map]. rewrite app_nil_r. apply repeatForward_not_entered. lia.
  - assert (C : negb (time.After fd (End e)) && negb (time.Before fd start) = true).
    { unfold time.After, time.Before. specialize (Hle 0).
      destruct (Z.ltb_spec (End e) fd); destruct (Z.ltb_spec fd start);
        cbn; try reflexivity; lia. }
    destruct fuel as [|fuel]; [lia|].
    cbn [repeatForward]. rewrite C.
    rewrite Days by (specialize (Hle 0); lia). unfold AddDateDays.
    rewrite IH; [| lia | lia | | lia | lia].
    + rewrite <- app_assoc. cbn [seq map app]. do 2 f_equal.
      f_equal; [f_equal; lia|].
      rewrite <- seq_shift, map_map. apply map_ext.
      intros k. f_equal; lia.
    + intros k Hk. specialize (Hle (k + 1)). lia.
Qed.

End RepeatAnnually.

(** X15: called with [numberOfYears = 0] on a valid event whose start
    [AddDate(0, 0, 0)] gives back unchanged, as it does for an instant
    in UTC, [RepeatEventAnnually] never terminates, whatever the window:
    the forward loop is skipped or runs forever, and the backward loop,
    whose direction stays at the event's start, runs forever.  (In a
    zone where the civil time of the start occurs twice, [AddDate] may
    move the start to the other occurrence; the property does not
    speak of that case.) *)
Theorem RepeatEventAnnually_zero_diverges
    (AddDate : time.Time -> Z -> time.Time) (e : Event)
    (start end_ : time.Time) (fuel : nat) :
  valid e ->
  AddDate (Start e) 0 = Start e ->
  RepeatEventAnnually AddDate fuel e 0 start end_ = OutOfFuel.
Proof.
  intros V Z0. unfold RepeatEventAnnually.
  change (time.wrap64 (- 0)) with 0. rewrite Z0.
  destruct (Z.le_gt_cases start (Start e)) as [S|S].
  - rewrite repeatForward_zero_runs_on by assumption. reflexivity.
  - rewrite repeatForward_not_entered by lia. cbn [bind].
    apply repeatBackward_zero_runs_on; assumption.
Qed.

Lemma RepeatEventAnnually_zero_diverges_witness :
  RepeatEventAnnually AddDateDays 5 (ev 0 7) 0 0 10 = OutOfFuel.
Proof.
  apply (RepeatEventAnnually_zero_diverges AddDateDays (ev 0 7) 0 10 5).
  - unfold valid; cbn; lia.
  - reflexivity.
Defined.

(** X16: take a valid event and a positive [numberOfYears] such that
    [AddDate(0, 0, numberOfYears)] moves every instant from the start
    to the end of the event by that many days of 24 hours, and
    [AddDate(0, 0, -numberOfYears)] moves the start to an earlier
    instant, as they do in UTC for day counts that overflow nothing.
    Then [RepeatEventAnnually] terminates and returns the event
    followed by its forward repeats only.  The k-th repeat starts [k *
    numberOfYears] days (not years) after the event and lasts
    [numberOfYears] days; there is one for every whole multiple of
    [numberOfYears] days that fits inside the event itself, and none at
    all when the first one would start before [start].  The parameter
    [end] plays no part, and no backward repeat is produced. *)
Theorem RepeatEventAnnually_positive
    (AddDate : time.Time -> Z -> time.Time) (e : Event) (numberOfYears : Z)
    (start end_ : time.Time) (fuel : nat) :
  valid e ->
  0 < numberOfYears ->
  (forall t, Start e <= t <= End e ->
             AddDate t numberOfYears = AddDateDays t numberOfYears) ->
  AddDate (Start e) (time.wrap64 (- numberOfYears)) < Start e ->
  forwardRepeats e numberOfYears start <= Z.of_nat fuel ->
  RepeatEventAnnually AddDate fuel e numberOfYears start end_
  = Returned (e :: map (fun k => forwardRepeat e numberOfYears (k + 1))
                       (upto (forwardRepeats e numberOfYears start))).
Proof.
  unfold valid. intros V N Days Back F.
  assert (D : 0 < numberOfYears * time.nsPerDay)
    by (unfold time.nsPerDay, time.Second; lia).
  assert (Q : 0 <= (End e - Start e) / (numberOfYears * time.nsPerDay))
    by (apply Z.div_pos; lia).
  unfold RepeatEventAnnually.
  assert (E : {| Start := Start e; End := End e; Name := Name e |} = e)
    by (destruct e; reflexivity).
  rewrite E, Days by lia. unfold forwardRepeats in *.
  destruct (Z.leb_spec start (AddDateDays (Start e) numberOfYears)) as [S|S].
  - rewrite (repeatForward_run AddDate e numberOfYears start
               (Z.to_nat ((End e - Start e) / (numberOfYears * time.nsPerDay)))
               N Days).
    + cbn [bind]. rewrite repeatBackward_not_entered by (left; exact Back).
      unfold upto. rewrite map_map. cbn [app]. do 2 f_equal.
      apply map_ext. intros k. unfold forwardRepeat, AddDateDays. f_equal; lia.
    + exact S.
    + unfold AddDateDays. lia.
    + rewrite Z2Nat.id by exact Q. intros k Hk. unfold AddDateDays.
      pose proof (Z.mul_div_le (End e - Start e) _ D). nia.
    + rewrite Z2Nat.id by exact Q. unfold AddDateDays.
      pose proof (Z.mul_succ_div_gt (End e - Start e) _ D). lia.
    + lia.
  - rewrite repeatForward_not_entered by (right; exact S). cbn [bind].
    rewrite repeatBackward_not_entered by (left; exact Back).
    reflexivity.
Qed.

Lemma RepeatEventAnnually_positive_witness :
  RepeatEventAnnually AddDateDays 2 (ev 0 (5 * time.nsPerDay)) 2 0 0
  = Returned (ev 0 (5 * time.nsPerDay)
              :: map (fun k => forwardRepeat (ev 0 (5 * time.nsPerDay)) 2 (k + 1))
                     (upto (forwardRepeats (ev 0 (5 * time.nsPerDay)) 2 0))).
Proof.
  apply (RepeatEventAnnually_positive AddDateDays (ev 0 (5 * time.nsPerDay)) 2 0 0 2).
  - unfold valid. vm_compute. discriminate.
  - lia.
  - intros t _. reflexivity.
  - vm_compute. reflexivity.
  - vm_compute. discriminate.
Defined.

(** ** The earlier version, [src/pkg/calendar.go] *)

(** X17: [reduceEvents] is the earlier [SquashEvents] with its result
    split in two: on the same two events both panic, or both return and
    the events [SquashEvents] returns are the first list of
    [reduceEvents] followed by the second. *)
Theorem SquashEvents_reduceEvents (e1 e2 : legacy.Event) :
  (l <- legacy.SquashEvents e1 e2 ;; Returned (map currentEvent l))
  = ('(l1, l2) <- reduceEvents (currentEvent e1) (currentEvent e2) ;;
     Returned (l1 ++ l2)).
Proof.
  destruct e1 as [s1 f1 n1 r1]. destruct e2 as [s2 f2 n2 r2].
  unfold legacy.SquashEvents, reduceEvents, isOverlap, currentEvent.
  unfold time.Before, time.After, time.Equal.
  cbn [legacy.Start legacy.End legacy.Name legacy.Repeat Start End Name].
  repeat (match goal with
          | |- context [Z.ltb ?a ?b] => destruct (Z.ltb a b)
          | |- context [Z.eqb ?a ?b] => destruct (Z.eqb a b)
          end; cbn [andb orb negb bind]);
    reflexivity.
Qed.

Lemma condenseInner_never_returns (events : list legacy.Event) (i : Z) (fuel : nat) :
  i < len events ->
  forall (j : Z) (result res : list legacy.Event),
    legacy.condenseInner fuel events i j result <> Returned res.
Proof.
  intros Hi. induction fuel as [|fuel IH]; intros j result res;
    cbn [legacy.condenseInner]; destruct (Z.ltb_spec i (len events)); try lia.
  - discriminate.
  - destruct (i =? j); [apply IH|].
    destruct (index events i); cbn [bind]; try discriminate.
    destruct (index events j); cbn [bind]; try discriminate.
    destruct (legacy.SquashEvents a a0); cbn [bind]; try discriminate.
    apply IH.
Qed.

Lemma SquashEvents_never_out_of_fuel (e1 e2 : legacy.Event) :
  legacy.SquashEvents e1 e2 <> OutOfFuel.
Proof.
  unfold legacy.SquashEvents.
  repeat match goal with
    | |- context [if ?c then _ else _] => destruct c
    end; discriminate.
Qed.

Lemma condenseInner_panics (a : legacy.Event) (rest : list legacy.Event) (k : nat) :
  forall (fuel : nat) (j : Z) (result : list legacy.Event),
    1 <= j ->
    (1 <= k)%nat ->
    len (a :: rest) - j < Z.of_nat k ->
    (k <= fuel)%nat ->
    exists p, legacy.condenseInner fuel (a :: rest) 0 j result = Panicked p.
Proof.
  pose proof (len_nonneg rest) as L.
  induction k as [|k IH]; intros fuel j result Hj H1 Hk Hfuel; [lia|].
  destruct fuel as [|fuel]; [lia|].
  cbn [legacy.condenseInner].
  destruct (Z.ltb_spec 0 (len (a :: rest))); [|rewrite len_cons in *; lia].
  destruct (Z.eqb_spec 0 j); [lia|].
  assert (I0 : index (a :: rest) 0 = Returned a).
  { unfold index. rewrite len_cons.
    destruct (Z.ltb_spec 0 (1 + len rest)); [reflexivity | lia]. }
  rewrite I0. cbn [bind].
  destruct (index (a :: rest) j) as [ej|p|] eqn:Ij; cbn [bind].
  - assert (j < len (a :: rest)).
    { unfold index in Ij. destruct (Z.ltb_spec j (len (a :: rest))); [assumption|].
      rewrite andb_false_r in Ij. discriminate. }
    destruct (legacy.SquashEvents a ej) as [evs|p|] eqn:Sq; cbn [bind].
    + apply IH; lia.
    + eauto.
    + exfalso. exact (SquashEvents_never_out_of_fuel _ _ Sq).
  - eauto.
  - exfalso. unfold index in Ij.
    destruct ((0 <=? j) && (j <? len (a :: rest))); [|discriminate].
    destruct (nth_error (a :: rest) (Z.to_nat j)); discriminate.
Qed.

(** X18: the earlier [CondenseOverlaps] returns for the empty input
    only.  On any other input its inner loop, whose condition tests [i]
    while the loop advances [j], never ends normally: it goes on until
    [SquashEvents] panics or [events[j]] is out of range, which as many
    rounds of fuel as there are events are enough to reach. *)
Theorem CondenseOverlaps_nonempty_panics (events : list legacy.Event) :
  events <> [] ->
  (forall (fuel : nat) (res : list legacy.Event),
     legacy.CondenseOverlaps fuel events <> Returned res) /\
  (forall fuel : nat,
     (List.length events <= fuel)%nat ->
     exists p, legacy.CondenseOverlaps fuel events = Panicked p).
Proof.
  intros NE. destruct events as [|a rest]; [contradiction|].
  pose proof (len_nonneg rest) as L.
  unfold legacy.CondenseOverlaps. split.
  - intros fuel res.
    destruct fuel as [|fuel]; cbn [legacy.condenseOuter]; rewrite len_cons;
      destruct (Z.ltb_spec 0 (1 + len rest)); try lia; try discriminate.
    pose proof (condenseInner_never_returns (a :: rest) 0 (S fuel)) as N.
    rewrite len_cons in N.
    destruct (legacy.condenseInner (S fuel) (a :: rest) 0 (0 + 1) []) eqn:E;
      cbn [bind]; try discriminate.
    exfalso. apply (N ltac:(lia) _ _ _ E).
  - intros fuel Hfuel. cbn [List.length] in Hfuel.
    destruct fuel as [|fuel]; [lia|].
    cbn [legacy.condenseOuter]. rewrite len_cons.
    destruct (Z.ltb_spec 0 (1 + len rest)); try lia.
    destruct (condenseInner_panics a rest (S (List.length rest)) (S fuel) (0 + 1) [])
      as [p Hp]; [lia | lia | unfold len; cbn [List.length]; lia | lia |].
    rewrite Hp. cbn [bind]. eauto.
Qed.

Lemma CondenseOverlaps_nonempty_panics_witness :
  (forall (fuel : nat) (res : list legacy.Event),
     legacy.CondenseOverlaps fuel [legacyEvent] <> Returned res) /\
  (forall fuel : nat,
     (List.length [legacyEvent] <= fuel)%nat ->
     exists p, legacy.CondenseOverlaps fuel [legacyEvent] = Panicked p).
Proof.
  apply (CondenseOverlaps_nonempty_panics [legacyEvent]).
  discriminate.
Defined.

(** ** [Rule.Expand] against [TestExpandEvents] *)

(** C5, evaluated at the failing input, the rule and window of
    [TestExpandEvents].  The test expects five occurrences, of the
    years 2020 to 2024, each from February 13 to February 14.  [Expand]
    returns six, over exact addition and over Go's [Time.Add] alike.
    Their starts are 365 days apart, 2020-02-13, 2021-02-12,
    2022-02-12, 2023-02-12, 2024-02-12 and 2025-02-11; and since the
    end is stepped before an occurrence is appended and the start after
    it, each ends one repeat late: the first occurrence runs from
    2020-02-13 to 2021-02-13, and none ends on a February 14. *)
Theorem Expand_birthday_breaks_test (fuel : nat) :
  Expand (6 + fuel) birthdayRule birthdayViewStart birthdayViewEnd
  = Returned birthdayExpansion /\
  ExpandGo (6 + fuel) birthdayRule birthdayViewStart birthdayViewEnd
  = Returned birthdayExpansion /\
  len birthdayExpansion = 6 /\
  map (fun e => (dateOf (Start e), dateOf (End e))) birthdayExpansion
  = [ ((2020, 2, 13), (2021, 2, 13)); ((2021, 2, 12), (2022, 2, 13));
      ((2022, 2, 12), (2023, 2, 13)); ((2023, 2, 12), (2024, 2, 13));
      ((2024, 2, 12), (2025, 2, 12)); ((2025, 2, 11), (2026, 2, 12)) ].
Proof.
  split; [apply Expand_birthday|].
  split; [apply ExpandGo_more_fuel; exact ExpandGo_birthday|].
  split; reflexivity.
Qed.
